(** * VKArchiveDownloader: the download resolution logic of [data_downloader.py]

    A shallow embedding of [get_response_info], [get_file_name_by_link],
    [find_link_by_url], [downloader] and [get_info], and the properties of
    the fetch workflow that the specification states about them.

    Conventions of the embedding:
    - a Python [str] is a [string] (the bytes of its UTF-8 encoding; searching
      and splitting on a valid pattern agree on bytes and on code points);
    - a Python [dict] with string keys is a [gmap string string];
    - a Python value that is [str] or [None] is an [option string];
    - an exception deriving from [Exception] is a value of [exn], and a
      computation that may raise is a [result];
    - everything outside the module (HTTP transport, HTML parser, folder
      creation, file system) is a field of the environment [Env]. *)

From Stdlib Require Import String Ascii ZArith List Lia Bool.
From stdpp Require Import base option gmap strings pretty.
Import ListNotations.

Open Scope string_scope.

#[local] Arguments String.append !s1 s2 : simpl nomatch.

(** ** Exceptions and fallible computations *)

(** The subclasses of [Exception] that the steps of a fetch raise. What
    derives from [BaseException] only (the cancellation of the task, the exit
    of the interpreter) is sent by the scheduler, not raised by a step, and
    is outside the model. *)
Inductive exn : Type :=
| AssertionError (msg : string)
| KeyError (key : string)
| ValueError (msg : string)
| AttributeError (msg : string)
| TypeError (msg : string)
| IndexError (msg : string)
| UnicodeDecodeError
| ClientError (msg : string)      (* aiohttp.ClientError and request timeouts *)
| OSError (msg : string).

Inductive result (A : Type) : Type :=
| Ok (a : A)
| Raise (e : exn).

Arguments Ok {A} a.
Arguments Raise {A} e.

Definition rbind {A B} (r : result A) (k : A -> result B) : result B :=
  match r with
  | Ok a => k a
  | Raise e => Raise e
  end.

Notation "'let*' x ':=' c 'in' k" := (rbind c (fun x => k))
  (at level 10, x pattern, c at level 100, k at level 200,
   format "'[v' 'let*'  x  ':='  c  'in' '/' k ']'").

(** ** Python strings *)

Module PyStr.

(** [s.startswith(sub)] *)
Definition startswith (sub s : string) : bool := String.prefix sub s.

(** Lowest index at which [sub] occurs in [s]. *)
Fixpoint find_index (sub s : string) : option nat :=
  if startswith sub s then Some 0
  else match s with
       | EmptyString => None
       | String _ s' => option_map S (find_index sub s')
       end.

(** [s.find(sub)]: the lowest index, or [-1]. *)
Definition find (sub s : string) : Z :=
  match find_index sub s with
  | Some i => Z.of_nat i
  | None => (-1)%Z
  end.

(** [sub in s] *)
Definition contains (sub s : string) : bool :=
  match find_index sub s with
  | Some _ => true
  | None => false
  end.

Fixpoint drop (n : nat) (s : string) : string :=
  match n, s with
  | O, _ => s
  | S _, EmptyString => EmptyString
  | S n', String _ s' => drop n' s'
  end.

Fixpoint take (n : nat) (s : string) : string :=
  match n, s with
  | O, _ => EmptyString
  | S _, EmptyString => EmptyString
  | S n', String c s' => String c (take n' s')
  end.

(** A slice bound [i] as Python resolves it against a length: a negative
    bound counts from the end, and the bound is clipped to [0..len]. *)
Definition clip (len : nat) (i : Z) : nat :=
  if (i <? 0)%Z then Z.to_nat (Z.of_nat len + i) else Nat.min (Z.to_nat i) len.

(** [s[i:]] *)
Definition slice_from (i : Z) (s : string) : string :=
  drop (clip (String.length s) i) s.

(** [s[:j]] *)
Definition slice_to (j : Z) (s : string) : string :=
  take (clip (String.length s) j) s.

(** Scan of [s.split(sep)] for a non-empty [sep]: [cur] is the piece read so
    far, [skip] the number of characters of a matched separator still to
    pass over. Occurrences are taken left to right and do not overlap. *)
Fixpoint split_go (sep : string) (skip : nat) (cur s : string) : list string :=
  match s with
  | EmptyString => [cur]
  | String c s' =>
      match skip with
      | S k => split_go sep k cur s'
      | O =>
          if startswith sep s
          then cur :: split_go sep (String.length sep - 1) EmptyString s'
          else split_go sep 0 (cur +:+ String c EmptyString) s'
      end
  end.

(** [s.split(sep)]; an empty separator is a [ValueError]. *)
Definition split (sep s : string) : result (list string) :=
  match sep with
  | EmptyString => Raise (ValueError "empty separator")
  | _ => Ok (split_go sep 0 EmptyString s)
  end.

End PyStr.

(** ** Python lists and dicts *)

(** [l[0]] *)
Definition item_first {A} (l : list A) : result A :=
  match l with
  | x :: _ => Ok x
  | [] => Raise (IndexError "list index out of range")
  end.

(** [l[-1]] *)
Definition item_last {A} (l : list A) : result A :=
  match List.rev l with
  | x :: _ => Ok x
  | [] => Raise (IndexError "list index out of range")
  end.

(** [a, b = l] *)
Definition unpack2 {A} (l : list A) : result (A * A) :=
  match l with
  | [a; b] => Ok (a, b)
  | _ :: _ :: _ :: _ => Raise (ValueError "too many values to unpack (expected 2)")
  | [_] => Raise (ValueError "not enough values to unpack (expected 2, got 1)")
  | [] => Raise (ValueError "not enough values to unpack (expected 2, got 0)")
  end.

(** [d[k]] *)
Definition getitem (d : gmap string string) (k : string) : result string :=
  match d !! k with
  | Some v => Ok v
  | None => Raise (KeyError k)
  end.

(** ** [os.path.join] (POSIX) for two components *)

(** [s.endswith('/')] *)
Fixpoint endswith_slash (s : string) : bool :=
  match s with
  | EmptyString => false
  | String c EmptyString => Ascii.eqb c "/"%char
  | String _ s' => endswith_slash s'
  end.

Definition join (a b : string) : string :=
  if PyStr.startswith "/" b then b
  else if orb (String.eqb a "") (endswith_slash a) then a +:+ b
  else a +:+ "/" +:+ b.

(** ** Content-Type parser *)

Definition get_response_info (content_type : string)
  : result (gmap string string) :=
  (let result0 : gmap string string := ∅ in
   let find_res := PyStr.find "charset=" content_type in
   let result1 :=
     if negb (find_res =? -1)%Z
     then <["encoding" :=
              PyStr.slice_from (find_res + Z.of_nat (String.length "charset=")) content_type]>
            result0
     else result0 in
   let find_res := PyStr.find ";" content_type in
   let full_type_info :=
     if negb (find_res =? -1)%Z
     then PyStr.slice_to find_res content_type
     else content_type in
   let* parts := PyStr.split "/" full_type_info in
   let* (data_type, extension) := unpack2 parts in
   Ok (<["full_type_info" := full_type_info]>
         (<["extension" := extension]>
            (<["data_type" := data_type]> result1)))).

(** ** Filename extractor *)

(** The body of the [try] block; [link] is [None] when the caller passes
    Python's [None] instead of a [str]. *)
Definition get_file_name_by_link_try (link : option string) : result string :=
  (match link with
   | None => Raise (AttributeError "'NoneType' object has no attribute 'split'")
   | Some s =>
       let* segments := PyStr.split "/" s in
       let* segment := item_last segments in
       let* pieces := PyStr.split "?extra" segment in
       item_first pieces
   end).

Definition get_file_name_by_link (link : option string) : option string :=
  match get_file_name_by_link_try link with
  | Ok name => Some name
  | Raise _ => None
  end.


(** ** The world outside the module *)

(** An element of a parsed HTML document: [el.name], [el.attrs], [el.text]. *)
Record Tag := {
  tag_name : string;
  tag_attrs : gmap string string;
  tag_text : string
}.

(** A parsed document ([BeautifulSoup]): its elements in document order. *)
Definition Soup := list Tag.

(** [soup.find(name)]: the first element with that name, or [None]. *)
Definition soup_find (name : string) (soup : Soup) : option Tag :=
  List.find (fun el => String.eqb (tag_name el) name) soup.

(** [el.get(key)] *)
Definition tag_get (el : Tag) (key : string) : option string :=
  tag_attrs el !! key.

(** An [aiohttp.ClientResponse], after redirects have been followed. *)
Record Response := {
  status : Z;
  headers : gmap string string;      (* header names in lower case *)
  url : string;                      (* [str(response.url)], the final URL *)
  text : result string;              (* [await response.text()] *)
  content : list string;             (* chunks of [response.content.iter_any()] *)
  content_error : option exn         (* raised by the stream after the chunks *)
}.

(** The three places of a fetch that issue a GET. *)
Inductive site := Primary | Viewer | FollowUp.

Record Request := {
  req_url : string;
  req_timeout : Z;
  req_cookies : option (gmap string string)
}.

(** What a fetch does to the semaphore, the network and the HTTP session.
    [EvRequest] is one call of [session.get]; the client follows redirects
    inside the call, and the response is the one of the final URL. *)
Inductive event :=
| EvAcquire
| EvSessionOpen
| EvRequest (s : site) (r : Request)
| EvRead (chunk : string)
| EvSessionClose
| EvRelease.

(** The collaborators of the module. The transport answers each request
    site on its own, so two GETs of one URL may be answered differently. *)
Record Env := {
  http : site -> Request -> result Response;     (* [session.get] *)
  BeautifulSoup : string -> Soup;                (* the [html.parser] parser *)
  create_folder : string -> result unit;         (* [tools.create_folder] *)
  open_wb : string -> result unit;               (* [aiofiles.open(p, 'wb')] *)
  write : string -> string -> result unit        (* [f.write(data)] on path [p] *)
}.

(** The state a fetch changes: the files on disk, the paths handed to
    [tools.create_folder], and the events of the fetch so far (oldest
    first). *)
Record World := {
  files : gmap string string;
  folders : gset string;
  trace : list event
}.

Definition empty_world : World := {| files := ∅; folders := ∅; trace := [] |}.

(** ** Computations with effects *)

Definition IO (A : Type) : Type := World -> World * result A.

Definition ret {A} (a : A) : IO A := fun w => (w, Ok a).

Definition raise {A} (e : exn) : IO A := fun w => (w, Raise e).

Definition bind {A B} (m : IO A) (k : A -> IO B) : IO B :=
  fun w =>
    match m w with
    | (w', Ok a) => k a w'
    | (w', Raise e) => (w', Raise e)
    end.

Notation "'let!' x ':=' c 'in' k" := (bind c (fun x => k))
  (at level 10, x pattern, c at level 100, k at level 200,
   format "'[v' 'let!'  x  ':='  c  'in' '/' k ']'").

Definition lift {A} (r : result A) : IO A := fun w => (w, r).

(** The world [w] after the events [evs]. *)
Definition log (w : World) (evs : list event) : World :=
  {| files := files w; folders := folders w; trace := trace w ++ evs |}.

Definition emit (e : event) : IO unit := fun w => (log w [e], Ok tt).

(** [assert cond, msg] *)
Definition assert (cond : bool) (msg : string) : IO unit :=
  if cond then ret tt else raise (AssertionError msg).

(** [async with cm: body]: the exit action runs however the body ends. *)
Definition async_with {A} (enter exit : event) (body : IO A) : IO A :=
  fun w =>
    match emit enter w with
    | (w1, _) =>
        match body w1 with
        | (w2, r) => (fst (emit exit w2), r)
        end
    end.

(** [try: body  except Exception: return handler] *)
Definition try_except {A} (body : IO A) (handler : exn -> IO A) : IO A :=
  fun w =>
    match body w with
    | (w', Ok a) => (w', Ok a)
    | (w', Raise e) => handler e w'
    end.

(** [session.get(url, timeout=t, cookies=c)]; a [None] URL is refused by
    the client before anything is sent. *)
Definition session_get (env : Env) (s : site) (target : option string)
    (timeout : Z) (cookies : option (gmap string string)) : IO Response :=
  match target with
  | None => raise (TypeError "Constructor parameter should be str")
  | Some u =>
      let req := {| req_url := u; req_timeout := timeout; req_cookies := cookies |} in
      let! _ := emit (EvRequest s req) in
      lift (http env s req)
  end.

(** [tools.create_folder(path)] *)
Definition tools_create_folder (env : Env) (path : string) : IO unit :=
  fun w =>
    match create_folder env path with
    | Ok _ => ({| files := files w; folders := {[path]} ∪ folders w; trace := trace w |}, Ok tt)
    | Raise e => (w, Raise e)
    end.

(** Opening for binary writing creates the file or empties it. *)
Definition file_open (env : Env) (p : string) : IO unit :=
  fun w =>
    match open_wb env p with
    | Ok _ => ({| files := <[p := ""]> (files w); folders := folders w; trace := trace w |}, Ok tt)
    | Raise e => (w, Raise e)
    end.

(** A write appends to what the open file holds. *)
Definition file_write (env : Env) (p data : string) : IO unit :=
  fun w =>
    match write env p data with
    | Ok _ =>
        ({| files := <[p := default "" (files w !! p) +:+ data]> (files w);
            folders := folders w; trace := trace w |}, Ok tt)
    | Raise e => (w, Raise e)
    end.

(** ** Link resolver *)

(** The loop over the element names: the [src] of the first name that the
    document has an element of; [None] when the loop falls through. *)
Fixpoint first_src (soup : Soup) (names : list string) : option (option string) :=
  match names with
  | [] => None
  | t :: names' =>
      match soup_find t soup with
      | Some el => Some (tag_get el "src")
      | None => first_src soup names'
      end
  end.

Definition error_marker : string := "Ошибка".

Definition find_link_by_url (env : Env) (url0 : string)
    (cookies : option (gmap string string)) : IO (option string) :=
  let! response := session_get env Viewer (Some url0) 5 cookies in
  let! _ := assert (status response =? 200)%Z
                   ("Response status: " +:+ pretty (status response)) in
  let! content_type := lift (getitem (headers response) "content-type") in
  let! returned :=
    if PyStr.contains "text/html" content_type then
      let! body := lift (text response) in
      let soup := BeautifulSoup env body in
      let! title :=
        match soup_find "title" soup with
        | Some el => ret (tag_text el)
        | None => raise (AttributeError "'NoneType' object has no attribute 'text'")
        end in
      let! _ := assert (negb (PyStr.contains error_marker title))
                       "Ошибка доступа к документу" in
      ret (first_src soup ["img"; "iframe"])
    else ret None in
  match returned with
  | Some link => ret link
  | None =>
      let redirect_url := url response in
      if negb (String.eqb redirect_url url0) then ret (Some redirect_url)
      else ret None
  end.

(** What the resolver returns or raises; the world of the call only gains
    the event of the request. *)
Definition resolved_link (env : Env) (url0 : string)
    (cookies : option (gmap string string)) : result (option string) :=
  snd (find_link_by_url env url0 cookies empty_world).

(** ** Stream downloader *)

(** The chunks of a body put together: [b''.join(chunks)]. *)
Definition joined (chunks : list string) : string :=
  fold_right String.append "" chunks.

Fixpoint write_chunks (env : Env) (p : string) (chunks : list string) : IO unit :=
  match chunks with
  | [] => ret tt
  | data :: chunks' =>
      let! _ := emit (EvRead data) in
      let! _ := file_write env p data in
      write_chunks env p chunks'
  end.

Definition downloader (env : Env) (response : Response) (path name : string) : IO unit :=
  let p := join path name in
  let! _ := file_open env p in
  let! _ := write_chunks env p (content response) in
  match content_error response with
  | Some e => raise e
  | None => ret tt
  end.

(** ** Fetch orchestrator *)

(** The record a fetch returns: [{'url': u, 'file_info': file_info}]. *)
Definition download_result (u file_info : string) : gmap string string :=
  <["file_info" := file_info]> (<["url" := u]> ∅).

(** The direct-download branch of [get_info]: the body of the test on
    ['image'] and ['audio'], up to its [return]. *)
Definition direct_download (env : Env) (response : Response)
    (content_type save_path file_name : string) : IO (gmap string string) :=
  let! response_info := lift (get_response_info content_type) in
  let! full_type_info := lift (getitem response_info "full_type_info") in
  let download_path := join save_path full_type_info in
  let! _ := tools_create_folder env download_path in
  let! extension := lift (getitem response_info "extension") in
  let! _ := downloader env response download_path
              (file_name +:+ "." +:+ extension) in
  ret (download_result (url response) full_type_info).

(** The name of the file in the resolve-and-download branch. *)
Definition download_file_name (find_res : option string)
    (file_name : string) (response_info : gmap string string) : IO string :=
  match get_file_name_by_link find_res with
  | None =>
      let! extension := lift (getitem response_info "extension") in
      ret (file_name +:+ "." +:+ extension)
  | Some name => ret name
  end.

(** The resolve-and-download branch of [get_info]: the body of the test on
    ['text/html'] and ['vk.com/doc'], up to its [return]. *)
Definition resolve_and_download (env : Env) (response : Response)
    (save_path file_name : string) (cookies : option (gmap string string))
  : IO (gmap string string) :=
  let! find_res := find_link_by_url env (url response) cookies in
  let! response2 := session_get env FollowUp find_res 15 None in
  let! content_type2 := lift (getitem (headers response2) "content-type") in
  let! response_info := lift (get_response_info content_type2) in
  let! full_type_info := lift (getitem response_info "full_type_info") in
  let download_path := join save_path full_type_info in
  let! _ := tools_create_folder env download_path in
  let! name := download_file_name find_res file_name response_info in
  let! _ := downloader env response2 download_path name in
  ret (download_result (url response2) full_type_info).

(** The body of the [try] block. The first block is the inner
    [async with]: it either returns a record or leaves the content type. *)
Definition get_info_try (env : Env) (url0 save_path file_name : string)
    (cookies : option (gmap string string)) : IO (gmap string string) :=
  async_with EvAcquire EvRelease
  (async_with EvSessionOpen EvSessionClose
    (let! response := session_get env Primary (Some url0) 15 None in
     let! first_block :=
       let! _ := assert (status response =? 200)%Z
                        ("Response status: " +:+ pretty (status response)) in
       let! content_type := lift (getitem (headers response) "content-type") in
       if existsb (fun t => PyStr.contains t content_type) ["image"; "audio"] then
         let! returned :=
           direct_download env response content_type save_path file_name in
         ret (inl returned)
       else
         ret (inr content_type) in
     match first_block with
     | inl returned => ret returned
     | inr target_content_type =>
         if PyStr.contains "text/html" target_content_type
            && PyStr.contains "vk.com/doc" url0
         then resolve_and_download env response save_path file_name cookies
         else ret (download_result (url response) "not_parse")
     end)).

(** The logger calls of the handler leave the world of the model as it is. *)
Definition get_info (env : Env) (url0 save_path file_name : string)
    (cookies : option (gmap string string)) : IO (gmap string string) :=
  try_except (get_info_try env url0 save_path file_name cookies)
             (fun _ => ret (download_result url0 "error")).

(** The requests of a fetch: the primary GET of the input URL, the GET of
    the viewer page by the link resolver, the GET of the resolved link. *)
Definition primary_request (url0 : string) : Request :=
  {| req_url := url0; req_timeout := 15; req_cookies := None |}.

Definition viewer_request (page_url : string)
    (cookies : option (gmap string string)) : Request :=
  {| req_url := page_url; req_timeout := 5; req_cookies := cookies |}.

Definition followup_request (link : string) : Request :=
  {| req_url := link; req_timeout := 15; req_cookies := None |}.

(** ** Example environments *)

(** A response with the given status, content type, final URL and body. *)
Definition example_response (st : Z) (content_type final_url : string)
    (chunks : list string) : Response :=
  {| status := st;
     headers := {["content-type" := content_type]};
     url := final_url;
     text := Ok (joined chunks);
     content := chunks;
     content_error := None |}.

(** An environment that answers the three request sites with the given
    outcomes, parses every page to [soup], and whose disk never fails. *)
Definition example_env (primary viewer followup : result Response)
    (soup : Soup) : Env :=
  {| http := fun s _ =>
       match s with
       | Primary => primary
       | Viewer => viewer
       | FollowUp => followup
       end;
     BeautifulSoup := fun _ => soup;
     create_folder := fun _ => Ok tt;
     open_wb := fun _ => Ok tt;
     write := fun _ _ => Ok tt |}.

Definition example_tag (name text0 : string) (src : option string) : Tag :=
  {| tag_name := name;
     tag_attrs := match src with
                  | Some link => {["src" := link]}
                  | None => ∅
                  end;
     tag_text := text0 |}.

Definition no_answer : result Response := Raise (ClientError "not requested").

(** A JPEG image served directly. *)
Definition env_jpeg : Env :=
  example_env (Ok (example_response 200 "image/jpeg" "https://host/a.jpg" ["ab"; "cd"]))
              no_answer no_answer [].

(** A PDF on a host that is not the viewer. *)
Definition env_pdf : Env :=
  example_env (Ok (example_response 200 "application/pdf" "https://host/a.pdf" ["%PDF"]))
              no_answer no_answer [].

(** A viewer page with an [iframe], and the answer to the follow-up GET. *)
Definition env_viewer (followup : Response) : Env :=
  example_env
    (Ok (example_response 200 "text/html; charset=utf-8" "https://vk.com/doc1_2" ["<html>"]))
    (Ok (example_response 200 "text/html" "https://vk.com/doc1_2" ["<html>"]))
    (Ok followup)
    [example_tag "title" "Document" None;
     example_tag "iframe" "" (Some "https://cdn/doc123")].

(** The follow-up GET answered with the audio file. *)
Definition followup_audio : Response :=
  example_response 200 "audio/mpeg" "https://cdn/doc123" ["ID3"; "data"].

(** The follow-up GET answered with an error page. *)
Definition followup_not_found : Response :=
  example_response 404 "text/html" "https://cdn/doc123" ["Not Found"].

(** A viewer page that denies access. *)
Definition env_denied : Env :=
  example_env
    (Ok (example_response 200 "text/html; charset=utf-8" "https://vk.com/doc1_2" ["<html>"]))
    (Ok (example_response 200 "text/html" "https://vk.com/doc1_2" ["<html>"]))
    no_answer
    [example_tag "title" "Ошибка | ВКонтакте" None;
     example_tag "img" "" (Some "https://cdn/denied.png")].

(** A network that fails every request. *)
Definition env_offline : Env :=
  example_env (Raise (ClientError "Cannot connect to host"))
              no_answer no_answer [].

(** ** A batch of fetches sharing one semaphore *)

(** One call of [get_info] and the environment that answers it. *)
Record Call := {
  call_env : Env;
  call_url : string;
  call_save_path : string;
  call_file_name : string;
  call_cookies : option (gmap string string)
}.

(** The events of one fetch, in the order the fetch performs them. *)
Definition fetch_events (c : Call) : list event :=
  trace (fst (get_info (call_env c) (call_url c) (call_save_path c)
                       (call_file_name c) (call_cookies c) empty_world)).

(** A fetch in progress: the events behind it and those still ahead. *)
Record Task := {
  done : list event;
  todo : list event
}.

(** The semaphore's value and the fetches of the batch. *)
Record System := {
  permits : nat;
  tasks : list Task
}.

(** What an event needs of the semaphore's value and does to it: acquiring
    waits while the value is zero. *)
Definition sema_step (value : nat) (e : event) : option nat :=
  match e with
  | EvAcquire =>
      match value with
      | O => None
      | S value' => Some value'
      end
  | EvRelease => Some (S value)
  | _ => Some value
  end.

(** The scheduler lets one fetch perform its next event. *)
Inductive step : System -> System -> Prop :=
| step_task (value value' : nat) (before after : list Task)
            (past rest : list event) (e : event) :
    sema_step value e = Some value' ->
    step {| permits := value;
            tasks := before ++ {| done := past; todo := e :: rest |} :: after |}
         {| permits := value';
            tasks := before ++ {| done := past ++ [e]; todo := rest |} :: after |}.

(** A batch run: [n] permits, no fetch started. *)
Definition start (n : nat) (batch : list Call) : System :=
  {| permits := n;
     tasks := map (fun c => {| done := []; todo := fetch_events c |}) batch |}.

Definition is_acquire (e : event) : bool :=
  match e with EvAcquire => true | _ => false end.
Definition is_release (e : event) : bool :=
  match e with EvRelease => true | _ => false end.
Definition is_open (e : event) : bool :=
  match e with EvSessionOpen => true | _ => false end.
Definition is_close (e : event) : bool :=
  match e with EvSessionClose => true | _ => false end.

(** Network activity: a request sent or a chunk of a body received. *)
Definition is_network (e : event) : bool :=
  match e with
  | EvRequest _ _ | EvRead _ => true
  | _ => false
  end.

Definition network_only (evs : list event) : Prop :=
  Forall (fun e => is_network e = true) evs.

(** [m] adds only network events to the trace, and a value it returns
    satisfies [Q]. *)
Definition behaves {A} (m : IO A) (Q : A -> Prop) : Prop :=
  forall w : World,
  exists evs : list event,
    trace (fst (m w)) = (trace w ++ evs)%list
    /\ network_only evs
    /\ (forall a : A, snd (m w) = Ok a -> Q a).

(** [d] is a result record: it has the keys [url] and [file_info] only. *)
Definition is_record (d : gmap string string) : Prop :=
  exists u file_info : string, d = download_result u file_info.

Definition occurrences (p : event -> bool) (l : list event) : nat :=
  length (List.filter p l).

(** The fetch has opened its HTTP session and not yet closed it. *)
Definition session_active (t : Task) : bool :=
  Nat.ltb (occurrences is_close (done t)) (occurrences is_open (done t)).

(** The fetch holds a permit. *)
Definition holds_permit (t : Task) : bool :=
  Nat.ltb (occurrences is_release (done t)) (occurrences is_acquire (done t)).

(** The number of fetches with an open HTTP session. *)
Definition active_sessions (s : System) : nat :=
  length (List.filter session_active (tasks s)).

(** The number of fetches that hold a permit. *)
Definition held_permits (s : System) : nat :=
  length (List.filter holds_permit (tasks s)).

(** The order of events of a fetch: the permit, the session, network
    activity, the session closed, the permit given back. *)
Definition protocol (events : list event) : Prop :=
  exists mid : list event,
    events = EvAcquire :: EvSessionOpen :: (mid ++ [EvSessionClose; EvRelease])%list
    /\ network_only mid.

(** What a batch run keeps true: every fetch follows the protocol, and the
    permits of the semaphore and those held add up to the configured count. *)
Definition batch_invariant (n : nat) (s : System) : Prop :=
  Forall (fun t => protocol (done t ++ todo t)%list) (tasks s)
  /\ permits s + held_permits s = n.

(** A batch of one permit in which the first fetch has opened its session
    and the second has not started. *)
Definition example_running (batch : list Call) : System :=
  match batch with
  | c1 :: others =>
      {| permits := 0;
         tasks := {| done := [EvAcquire; EvSessionOpen];
                     todo := tl (tl (fetch_events c1)) |}
                  :: map (fun c => {| done := []; todo := fetch_events c |}) others |}
  | [] => start 1 []
  end.

(** A batch of one fetch on a network that fails, and the state in which
    that fetch has performed its five events. *)
Definition offline_call : Call :=
  {| call_env := env_offline; call_url := "https://host/b.jpg";
     call_save_path := "save"; call_file_name := "b"; call_cookies := None |}.

Definition offline_done : System :=
  {| permits := 1;
     tasks := [ {| done := fetch_events offline_call; todo := [] |} ] |}.

(** Two calls for a batch. *)
Definition example_batch : list Call :=
  [ {| call_env := env_jpeg; call_url := "https://host/a.jpg";
       call_save_path := "save"; call_file_name := "a"; call_cookies := None |};
    {| call_env := env_offline; call_url := "https://host/b.jpg";
       call_save_path := "save"; call_file_name := "b"; call_cookies := None |} ].

(** ** What a computation does to the trace and to the files *)

(** [m] adds only events that satisfy [P] to the trace. *)
Definition emits {A} (P : event -> Prop) (m : IO A) : Prop :=
  forall w : World,
  exists evs : list event,
    trace (fst (m w)) = (trace w ++ evs)%list /\ Forall P evs.

(** [m] leaves every file as it is. *)
Definition no_file {A} (m : IO A) : Prop :=
  forall w : World, files (fst (m w)) = files w.

(** [m] leaves every file but at most one as it is. *)
Definition one_file {A} (m : IO A) : Prop :=
  forall w : World,
  exists p : string,
    forall q : string, q <> p -> files (fst (m w)) !! q = files w !! q.

(** The event is not a request of the link resolver or of the follow-up,
    and if it is the primary request it carries no cookies. *)
Definition primary_only (e : event) : Prop :=
  match e with
  | EvRequest Primary r => req_cookies r = None
  | EvRequest Viewer _ | EvRequest FollowUp _ => False
  | _ => True
  end.

(** Every fetch of the batch has performed all its events. *)
Definition finished (s : System) : Prop :=
  Forall (fun t => todo t = []) (tasks s).

(** ** More example environments *)

(** A response without a [content-type] header. *)
Definition bare_response : Response :=
  {| status := 200; headers := ∅; url := "https://host/raw";
     text := Ok ""; content := []; content_error := None |}.

Definition env_no_header : Env :=
  example_env (Ok bare_response) no_answer no_answer [].

(** A primary request answered with status 404. *)
Definition env_primary_404 : Env :=
  example_env (Ok (example_response 404 "text/html" "https://host/gone" ["gone"]))
              no_answer no_answer [].

Definition viewer_primary : Response :=
  example_response 200 "text/html; charset=utf-8" "https://vk.com/doc1_2" ["<html>"].

(** A viewer page answered with status 403. *)
Definition env_viewer_403 : Env :=
  example_env (Ok viewer_primary)
    (Ok (example_response 403 "text/html" "https://vk.com/doc1_2" ["<html>"]))
    no_answer [].

(** A viewer page without a [title] element. *)
Definition env_untitled : Env :=
  example_env (Ok viewer_primary)
    (Ok (example_response 200 "text/html" "https://vk.com/doc1_2" ["<html>"]))
    no_answer
    [example_tag "img" "" (Some "https://cdn/pic.png")].

(** A viewer page with neither [img] nor [iframe], reached without a
    redirect. *)
Definition env_unresolved : Env :=
  example_env (Ok viewer_primary)
    (Ok (example_response 200 "text/html" "https://vk.com/doc1_2" ["<html>"]))
    no_answer
    [example_tag "title" "Document" None].

(** A JPEG image whose stream breaks after two chunks. *)
Definition broken_jpeg : Response :=
  {| status := 200; headers := {["content-type" := "image/jpeg"]};
     url := "https://host/a.jpg"; text := Ok "";
     content := ["ab"; "cd"];
     content_error := Some (ClientError "Response payload is not completed") |}.

Definition env_broken_stream : Env :=
  example_env (Ok broken_jpeg) no_answer no_answer [].

(** An audio file served directly, with a parameter in its content type. *)
Definition audio_response : Response :=
  example_response 200 "audio/mpeg; charset=binary" "https://host/s.mp3"
    ["ID3"; "data"].

Definition env_audio : Env :=
  example_env (Ok audio_response) no_answer no_answer [].

(** A disk on which no file opens. *)
Definition env_read_only : Env :=
  {| http := http env_jpeg;
     BeautifulSoup := BeautifulSoup env_jpeg;
     create_folder := fun _ => Ok tt;
     open_wb := fun _ => Raise (OSError "Read-only file system");
     write := fun _ _ => Ok tt |}.

(* ================================================================== *)
(** * Properties *)

(** ** Facts about the string operations *)

Section StringFacts.

Import PyStr.

Lemma append_assoc (a b c : string) : (a +:+ b) +:+ c = a +:+ (b +:+ c).
Proof. induction a as [|x a IH]; simpl; [reflexivity | now rewrite IH]. Qed.

Lemma append_empty_r (a : string) : a +:+ "" = a.
Proof. induction a as [|x a IH]; simpl; [reflexivity | now rewrite IH]. Qed.

Lemma length_append (a b : string) :
  String.length (a +:+ b) = String.length a + String.length b.
Proof. induction a as [|x a IH]; simpl; [reflexivity | now rewrite IH]. Qed.

Lemma take_app (a r : string) : take (String.length a) (a +:+ r) = a.
Proof. induction a as [|x a IH]; simpl; [now destruct r | now rewrite IH]. Qed.

Lemma drop_app (a r : string) (k : nat) :
  drop (String.length a + k) (a +:+ r) = drop k r.
Proof. induction a as [|x a IH]; simpl; [reflexivity | exact IH]. Qed.

Lemma clip_of_nat (len i : nat) : i <= len -> clip len (Z.of_nat i) = i.
Proof.
  intros Hle. unfold clip.
  destruct (Z.ltb_spec (Z.of_nat i) 0) as [Hneg | _]; [lia |].
  rewrite Nat2Z.id. lia.
Qed.

Lemma startswith_nil (s : string) : startswith "" s = true.
Proof. now destruct s. Qed.

Lemma startswith_char (d c : ascii) (s : string) :
  startswith (String d "") (String c s) = if ascii_dec d c then true else false.
Proof. simpl. destruct (ascii_dec d c); [apply startswith_nil | reflexivity]. Qed.

(** A character foreign to a pattern is foreign to the pattern's tail and
    differs from its head. *)
Lemma foreign_cons (d x : ascii) (sub : string) :
  contains (String d "") (String x sub) = false ->
  x <> d /\ contains (String d "") sub = false.
Proof.
  unfold contains. cbn [find_index]. rewrite startswith_char.
  destruct (ascii_dec d x) as [-> | Hne]; [discriminate |].
  intros H. split; [congruence |].
  now destruct (find_index (String d "") sub).
Qed.

(** A pattern that does not start [a] does not start [a] followed by a
    character foreign to the pattern either. *)
Lemma startswith_app_foreign (sub a : string) (d : ascii) (r : string) :
  startswith sub a = false ->
  contains (String d "") sub = false ->
  startswith sub (a +:+ String d r) = false.
Proof.
  revert a. induction sub as [|x sub IH]; intros a Hpre Hd.
  - now rewrite startswith_nil in Hpre.
  - apply foreign_cons in Hd as [Hx Hsub].
    destruct a as [|c a]; simpl in *.
    + destruct (ascii_dec x d); [contradiction | reflexivity].
    + destruct (ascii_dec x c); [now apply IH | reflexivity].
Qed.

Lemma find_index_None_inv (sub : string) (c : ascii) (a : string) :
  find_index sub (String c a) = None ->
  startswith sub (String c a) = false /\ find_index sub a = None.
Proof.
  intros H. cbn [find_index] in H.
  destruct (startswith sub (String c a)); [discriminate H |].
  split; [reflexivity |]. now destruct (find_index sub a).
Qed.

(** Searching past a prefix free of the pattern, closed by a character
    foreign to the pattern. *)
Lemma find_index_app_foreign (sub a : string) (d : ascii) (r : string) :
  find_index sub a = None ->
  contains (String d "") sub = false ->
  find_index sub (a +:+ String d r)
  = option_map (fun k => String.length a + 1 + k) (find_index sub r).
Proof.
  intros Ha Hd. induction a as [|c a IH].
  - assert (Hpre : startswith sub "" = false).
    { cbn [find_index] in Ha. now destruct (startswith sub ""). }
    pose proof (startswith_app_foreign sub "" d r Hpre Hd) as Hs.
    cbn [append] in *. cbn [find_index]. rewrite Hs.
    now destruct (find_index sub r).
  - apply find_index_None_inv in Ha as [Hpre Ha'].
    pose proof (startswith_app_foreign sub (String c a) d r Hpre Hd) as Hs.
    cbn [append] in *. cbn [find_index]. rewrite Hs, (IH Ha').
    now destruct (find_index sub r).
Qed.

(** The first occurrence of a character after a prefix free of it. *)
Lemma find_index_char_hit (d : ascii) (a r : string) :
  find_index (String d "") a = None ->
  find_index (String d "") (a +:+ String d r) = Some (String.length a).
Proof.
  intros Ha. induction a as [|c a IH].
  - cbn [append find_index]. rewrite startswith_char.
    destruct (ascii_dec d d); [reflexivity | contradiction].
  - apply find_index_None_inv in Ha as [Hpre Ha'].
    cbn [append find_index]. rewrite startswith_char in Hpre |- *.
    destruct (ascii_dec d c); [discriminate Hpre |].
    now rewrite (IH Ha').
Qed.

(** Splitting on a character: a stretch free of it joins the current piece. *)
Lemma split_go_char_free (d : ascii) (a cur r : string) :
  find_index (String d "") a = None ->
  split_go (String d "") 0 cur (a +:+ r) = split_go (String d "") 0 (cur +:+ a) r.
Proof.
  revert cur. induction a as [|c a IH]; intros cur Ha.
  - now rewrite append_empty_r.
  - apply find_index_None_inv in Ha as [Hpre Ha'].
    cbn [append split_go]. rewrite startswith_char in Hpre |- *.
    destruct (ascii_dec d c); [discriminate Hpre |].
    rewrite (IH _ Ha'), append_assoc. reflexivity.
Qed.

Lemma split_go_char_none (d : ascii) (a cur : string) :
  find_index (String d "") a = None ->
  split_go (String d "") 0 cur a = [cur +:+ a].
Proof.
  intros Ha. rewrite <- (append_empty_r a) at 1.
  now rewrite split_go_char_free.
Qed.

(** [split_go] never returns the empty list. *)
Lemma split_go_nonempty (sep : string) (s : string) :
  forall skip cur, split_go sep skip cur s <> [].
Proof.
  induction s as [|c s IH]; intros skip cur; cbn [split_go]; [easy |].
  destruct skip; [| apply IH].
  destruct (startswith sep (String c s)); [easy | apply IH].
Qed.

End StringFacts.

(** ** Content-Type parser *)

Section ContentType.

Import PyStr.

Lemma contains_false (sub s : string) :
  contains sub s = false -> find_index sub s = None.
Proof. unfold contains. now destruct (find_index sub s). Qed.

Lemma find_absent (sub s : string) :
  find_index sub s = None -> find sub s = (-1)%Z.
Proof. unfold find. now intros ->. Qed.

(** A pattern without ["/"] that occurs neither in [ty] nor in [ext] does
    not occur in [ty/ext]. *)
Lemma find_index_type_ext (sub ty ext : string) :
  contains "/" sub = false ->
  contains sub ty = false -> contains sub ext = false ->
  find_index sub (ty +:+ "/" +:+ ext) = None.
Proof.
  intros Hsub Hty Hext. cbn [append].
  rewrite find_index_app_foreign by auto using contains_false.
  now rewrite (contains_false _ _ Hext).
Qed.

Lemma split_type_ext (ty ext : string) :
  contains "/" ty = false -> contains "/" ext = false ->
  split "/" (ty +:+ "/" +:+ ext) = Ok [ty; ext].
Proof.
  intros Hty Hext. unfold split. f_equal. cbn [append].
  rewrite split_go_char_free by auto using contains_false.
  cbn [append split_go]. rewrite startswith_char.
  destruct (ascii_dec "/" "/"); [| contradiction].
  cbn [String.length Nat.sub].
  rewrite split_go_char_none by auto using contains_false.
  reflexivity.
Qed.

(** C4. For a content type of the exact form [ty/ext], where neither part
    holds a ["/"], a [";"] or a ["charset="], the parser returns
    [data_type = ty], [extension = ext], [full_type_info = ty/ext] and no
    [encoding] key; for [ty/ext; charset=X] it returns the same three fields
    and [encoding = X]. *)
Theorem get_response_info_forms (ty ext : string) :
  contains "/" ty = false -> contains "/" ext = false ->
  contains ";" ty = false -> contains ";" ext = false ->
  contains "charset=" ty = false -> contains "charset=" ext = false ->
  (exists d : gmap string string,
      get_response_info (ty +:+ "/" +:+ ext) = Ok d
      /\ d !! "data_type" = Some ty
      /\ d !! "extension" = Some ext
      /\ d !! "full_type_info" = Some (ty +:+ "/" +:+ ext)
      /\ d !! "encoding" = None)
  /\ (forall X : string,
      exists d : gmap string string,
        get_response_info ((ty +:+ "/" +:+ ext) +:+ "; charset=" +:+ X) = Ok d
        /\ d !! "data_type" = Some ty
        /\ d !! "extension" = Some ext
        /\ d !! "full_type_info" = Some (ty +:+ "/" +:+ ext)
        /\ d !! "encoding" = Some X).
Proof.
  intros Hs1 Hs2 Hc1 Hc2 Hp1 Hp2.
  pose proof (find_index_type_ext ";" ty ext eq_refl Hc1 Hc2) as Hsemi.
  pose proof (find_index_type_ext "charset=" ty ext eq_refl Hp1 Hp2) as Hcs.
  pose proof (split_type_ext ty ext Hs1 Hs2) as Hsplit.
  set (full := ty +:+ "/" +:+ ext) in *.
  split.
  - unfold get_response_info.
    rewrite (find_absent _ _ Hsemi), (find_absent _ _ Hcs).
    cbn [Z.eqb Pos.eqb negb]. rewrite Hsplit. cbn [rbind unpack2].
    eexists. split; [reflexivity |]. repeat split; reflexivity.
  - intros X. unfold get_response_info.
    assert (Hf1 : find "charset=" (full +:+ "; charset=" +:+ X)
                  = Z.of_nat (String.length full + 2)).
    { unfold find. cbn [append].
      rewrite find_index_app_foreign by (assumption || reflexivity).
      cbn [find_index]. cbn [startswith String.prefix].
      destruct (ascii_dec "c" " ") as [Habs | _]; [discriminate Habs |].
      cbn [append find_index startswith String.prefix].
      repeat match goal with
             | |- context [ascii_dec ?a ?a] =>
                 destruct (ascii_dec a a); [| contradiction]
             end.
      fold (startswith "" X). rewrite startswith_nil. cbn [option_map].
      f_equal. lia. }
    assert (Hf2 : find ";" (full +:+ "; charset=" +:+ X)
                  = Z.of_nat (String.length full)).
    { unfold find. cbn [append]. now rewrite find_index_char_hit. }
    rewrite Hf1, Hf2.
    assert (Hne1 : negb (Z.of_nat (String.length full + 2) =? -1)%Z = true).
    { apply negb_true_iff, Z.eqb_neq. lia. }
    assert (Hne2 : negb (Z.of_nat (String.length full) =? -1)%Z = true).
    { apply negb_true_iff, Z.eqb_neq. lia. }
    rewrite Hne1, Hne2.
    assert (Hto : slice_to (Z.of_nat (String.length full))
                    (full +:+ "; charset=" +:+ X) = full).
    { unfold slice_to. rewrite clip_of_nat by (rewrite length_append; lia).
      apply take_app. }
    assert (Hfrom : slice_from (Z.of_nat (String.length full + 2)
                                + Z.of_nat (String.length "charset="))
                      (full +:+ "; charset=" +:+ X) = X).
    { unfold slice_from. rewrite <- Nat2Z.inj_add.
      rewrite clip_of_nat
        by (rewrite !length_append; cbn [String.length]; lia).
      replace (String.length full + 2 + String.length "charset=")
        with (String.length full + 10) by (cbn [String.length]; lia).
      rewrite drop_app. reflexivity. }
    rewrite Hto, Hfrom, Hsplit. cbn [rbind unpack2].
    eexists. split; [reflexivity |]. repeat split; reflexivity.
Qed.

(** The theorem at [image/gif]. *)
Lemma get_response_info_forms_witness :
  (exists d : gmap string string,
      get_response_info "image/gif" = Ok d
      /\ d !! "data_type" = Some "image"
      /\ d !! "extension" = Some "gif"
      /\ d !! "full_type_info" = Some "image/gif"
      /\ d !! "encoding" = None)
  /\ (forall X : string,
      exists d : gmap string string,
        get_response_info ("image/gif" +:+ "; charset=" +:+ X) = Ok d
        /\ d !! "data_type" = Some "image"
        /\ d !! "extension" = Some "gif"
        /\ d !! "full_type_info" = Some "image/gif"
        /\ d !! "encoding" = Some X).
Proof.
  apply (get_response_info_forms "image" "gif"); reflexivity.
Defined.

End ContentType.

(** ** Filename extractor *)

Section FileName.

Import PyStr.

(** The first piece of a split is what precedes the first separator. *)
Lemma split_go_first (sep : string) (s : string) :
  forall (cur : string),
    hd "" (split_go sep 0 cur s)
    = cur +:+ match find_index sep s with
              | Some i => take i s
              | None => s
              end.
Proof.
  induction s as [|c s IH]; intros cur.
  - cbn [split_go hd find_index]. destruct (startswith sep ""); apply eq_sym, append_empty_r.
  - cbn [split_go find_index].
    destruct (startswith sep (String c s)).
    + cbn [hd take]. apply eq_sym, append_empty_r.
    + rewrite IH, append_assoc.
      destruct (find_index sep s) as [i|]; reflexivity.
Qed.

Lemma item_first_hd (l : list string) :
  l <> [] -> item_first l = Ok (hd "" l).
Proof. destruct l; [contradiction | reflexivity]. Qed.

Lemma item_last_cons {A} (x : A) (l : list A) :
  l <> [] -> item_last (x :: l) = item_last l.
Proof.
  intros Hl. unfold item_last. cbn [List.rev].
  destruct (List.rev l) as [|y l'] eqn:Hr; [| reflexivity].
  apply (f_equal (@List.rev A)) in Hr. rewrite List.rev_involutive in Hr.
  contradiction.
Qed.

Lemma item_last_total {A} (l : list A) :
  l <> [] -> exists x, item_last l = Ok x.
Proof.
  intros Hl. unfold item_last.
  destruct (List.rev l) as [|y l'] eqn:Hr; [| eauto].
  apply (f_equal (@List.rev A)) in Hr. rewrite List.rev_involutive in Hr.
  contradiction.
Qed.

(** On a string, the [try] block of the extractor ends normally. *)
Lemma get_file_name_by_link_try_ok (s : string) :
  exists name, get_file_name_by_link_try (Some s) = Ok name.
Proof.
  unfold get_file_name_by_link_try, split. cbn [rbind].
  destruct (item_last_total (split_go "/" 0 "" s)) as [segment ->];
    [apply split_go_nonempty |].
  cbn [rbind]. rewrite item_first_hd by apply split_go_nonempty. eauto.
Qed.

(** A separator-free string is the only piece of its split. *)
Lemma split_no_slash (s : string) :
  contains "/" s = false -> split "/" s = Ok [s].
Proof.
  intros Hs. unfold split. f_equal.
  now rewrite split_go_char_none by auto using contains_false.
Qed.

(** The last piece of the split of a string that ends in the separator. *)
Lemma item_last_trailing_slash (s : string) :
  forall cur, item_last (split_go "/" 0 cur (s +:+ "/")) = Ok "".
Proof.
  induction s as [|c s IH]; intros cur.
  - reflexivity.
  - cbn [append split_go]. rewrite startswith_char.
    destruct (ascii_dec "/" c).
    + cbn [String.length Nat.sub].
      rewrite item_last_cons by apply split_go_nonempty. apply IH.
    + apply IH.
Qed.

Lemma get_file_name_trailing_slash (s : string) :
  get_file_name_by_link (Some (s +:+ "/")) = Some "".
Proof.
  unfold get_file_name_by_link, get_file_name_by_link_try, split.
  cbn [rbind]. rewrite item_last_trailing_slash. reflexivity.
Qed.

(** C5, the claim as stated fails: a string without ["/"] does not give
    [None]; ["abc"] gives ["abc"]. *)
Lemma get_file_name_no_slash_counterexample :
  ~ (forall s : string,
        contains "/" s = false -> get_file_name_by_link (Some s) = None).
Proof. intros H. specialize (H "abc" eq_refl). discriminate H. Qed.

(** C5 as amended. The extractor gives ["name.ext"] for
    ["https://host/path/name.ext?extra=1"] and [""] for ["https://host/"];
    for a string without ["/"] it gives that string cut at its first
    ["?extra"] (the whole string when it has none), not [None]; and on every
    string its [try] block ends normally, so nothing is raised. *)
Theorem get_file_name_by_link_cases :
  get_file_name_by_link (Some "https://host/path/name.ext?extra=1") = Some "name.ext"
  /\ get_file_name_by_link (Some "https://host/") = Some ""
  /\ (forall s : string,
        contains "/" s = false ->
        get_file_name_by_link (Some s)
        = Some (match find_index "?extra" s with
                | Some i => take i s
                | None => s
                end))
  /\ (forall s : string, exists name,
        get_file_name_by_link_try (Some s) = Ok name
        /\ get_file_name_by_link (Some s) = Some name).
Proof.
  split; [reflexivity |]. split; [reflexivity |]. split.
  - intros s Hs. unfold get_file_name_by_link, get_file_name_by_link_try.
    rewrite (split_no_slash s Hs). cbn [rbind item_last List.rev app].
    unfold split. cbn [rbind].
    rewrite item_first_hd by apply split_go_nonempty.
    now rewrite split_go_first.
  - intros s. destruct (get_file_name_by_link_try_ok s) as [name Hname].
    exists name. split; [exact Hname |].
    unfold get_file_name_by_link. now rewrite Hname.
Qed.

(** The amended clause at ["abc?extra=1"]. *)
Lemma get_file_name_by_link_cases_witness :
  contains "/" "abc?extra=1" = false
  /\ get_file_name_by_link (Some "abc?extra=1") = Some "abc".
Proof.
  split; [reflexivity |].
  exact (proj1 (proj2 (proj2 get_file_name_by_link_cases)) "abc?extra=1" eq_refl).
Defined.

End FileName.

(** ** Running a fetch *)

Section Runs.

Import PyStr.

Lemma log_log (w : World) (a b : list event) : log (log w a) b = log w (a ++ b).
Proof. unfold log. cbn [files folders trace]. now rewrite <- app_assoc. Qed.

Lemma getitem_Some (d : gmap string string) (k v : string) :
  d !! k = Some v -> getitem d k = Ok v.
Proof. unfold getitem. now intros ->. Qed.

Lemma bind_ok {A B} (m : IO A) (k : A -> IO B) (w w' : World) (a : A) :
  m w = (w', Ok a) -> bind m k w = k a w'.
Proof. unfold bind. now intros ->. Qed.

Lemma bind_raise {A B} (m : IO A) (k : A -> IO B) (w w' : World) (e : exn) :
  m w = (w', Raise e) -> bind m k w = (w', Raise e).
Proof. unfold bind. now intros ->. Qed.

Lemma bind_emit {B} (e : event) (k : unit -> IO B) (w : World) :
  bind (emit e) k w = k tt (log w [e]).
Proof. reflexivity. Qed.

Lemma async_with_run {A} (enter exit : event) (body : IO A) (w : World) :
  async_with enter exit body w
  = (log (fst (body (log w [enter]))) [exit], snd (body (log w [enter]))).
Proof. unfold async_with, emit. cbn [fst]. now destruct (body (log w [enter])). Qed.

Ltac io_unfold :=
  unfold get_info, try_except, get_info_try, async_with, session_get,
    bind, emit, lift, assert, ret, raise.

(** C7. When the primary response (status 200) has a content type with
    neither ["image"] nor ["audio"], and it is not the case that the content
    type has ["text/html"] and the URL has the viewer pattern, [get_info]
    returns [{url: the response's URL, file_info: "not_parse"}]; it raises
    nothing, writes no file and creates no folder, and its only request is
    the primary one. *)
Theorem get_info_not_parse (env : Env) (url0 save_path file_name : string)
    (cookies : option (gmap string string)) (w : World)
    (response : Response) (content_type : string) :
  http env Primary (primary_request url0) = Ok response ->
  status response = 200%Z ->
  headers response !! "content-type" = Some content_type ->
  contains "image" content_type = false ->
  contains "audio" content_type = false ->
  contains "text/html" content_type && contains "vk.com/doc" url0 = false ->
  let out := get_info env url0 save_path file_name cookies w in
  snd out = Ok (download_result (url response) "not_parse")
  /\ files (fst out) = files w
  /\ folders (fst out) = folders w
  /\ trace (fst out)
     = (trace w ++ [EvAcquire; EvSessionOpen; EvRequest Primary (primary_request url0);
                    EvSessionClose; EvRelease])%list.
Proof.
  intros Hhttp Hstatus Hct Himg Haud Hviewer.
  assert (Hrun : get_info env url0 save_path file_name cookies w
          = (log w [EvAcquire; EvSessionOpen; EvRequest Primary (primary_request url0);
                    EvSessionClose; EvRelease],
             Ok (download_result (url response) "not_parse"))).
  { io_unfold. fold (primary_request url0). cbn [fst snd].
    rewrite Hhttp, Hstatus. cbn [Z.eqb Pos.eqb].
    rewrite (getitem_Some _ _ _ Hct). cbn [existsb].
    rewrite Himg, Haud. cbn [orb]. rewrite Hviewer.
    rewrite !log_log. reflexivity. }
  cbv zeta. rewrite Hrun. repeat split; reflexivity.
Qed.

(** *** The downloader *)

Lemma write_chunks_ok (env : Env) (p : string) (chunks : list string) :
  forall (w : World) (held : string),
    files w !! p = Some held ->
    (forall data, In data chunks -> write env p data = Ok tt) ->
    write_chunks env p chunks w
    = ({| files := <[p := held +:+ joined chunks]> (files w);
          folders := folders w;
          trace := (trace w ++ map EvRead chunks)%list |}, Ok tt).
Proof.
  induction chunks as [|data chunks IH]; intros w held Hp Hw.
  - cbn [write_chunks joined fold_right map]. unfold ret.
    rewrite append_empty_r, (insert_id _ _ _ Hp), app_nil_r.
    now destruct w.
  - cbn [write_chunks]. unfold bind, emit, file_write.
    cbn [log files folders trace].
    rewrite (Hw data) by now left. rewrite Hp. cbn [default].
    rewrite (IH _ (held +:+ data)).
    + cbn [files folders trace joined fold_right map].
      rewrite insert_insert_eq, append_assoc, <- app_assoc. reflexivity.
    + cbn [files]. apply lookup_insert_eq.
    + intros d Hd. apply Hw. now right.
Qed.

(** When the file opens, every write succeeds and the stream ends without
    an error, the file holds the body. *)
Lemma downloader_ok (env : Env) (response : Response) (path name : string)
    (w : World) :
  open_wb env (join path name) = Ok tt ->
  (forall data, In data (content response) ->
                write env (join path name) data = Ok tt) ->
  content_error response = None ->
  downloader env response path name w
  = ({| files := <[join path name := joined (content response)]> (files w);
        folders := folders w;
        trace := (trace w ++ map EvRead (content response))%list |}, Ok tt).
Proof.
  intros Hopen Hwrite Herr. unfold downloader, bind, file_open.
  rewrite Hopen, (write_chunks_ok env _ _ _ "").
  - rewrite Herr. unfold ret. cbn [files folders trace].
    now rewrite insert_insert_eq.
  - cbn [files]. apply lookup_insert_eq.
  - exact Hwrite.
Qed.

(** *** Direct download *)

Lemma startswith_slash_append (a b : string) :
  startswith "/" a = false -> startswith "/" (a +:+ String "." b) = false.
Proof. destruct a as [|c a]; [reflexivity |]. cbn [append]. now rewrite !startswith_char. Qed.

Lemma endswith_slash_append (a : string) (c : ascii) (b : string) :
  endswith_slash (a +:+ String c b) = endswith_slash (String c b).
Proof.
  induction a as [|x a IH]; [reflexivity |].
  cbn [append]. rewrite <- IH.
  destruct (a +:+ String c b) eqn:Ha; [destruct a; discriminate Ha | reflexivity].
Qed.

Lemma eqb_empty_append (a : string) (c : ascii) (b : string) :
  String.eqb (a +:+ String c b) "" = false.
Proof. now destruct a. Qed.

(** The path of a direct download, for a save path and a file name that
    [join] takes as they are. *)
Lemma join_plain (save_path full_type_info name : string) :
  String.eqb save_path "" = false ->
  endswith_slash save_path = false ->
  startswith "/" full_type_info = false ->
  endswith_slash full_type_info = false ->
  full_type_info <> "" ->
  startswith "/" name = false ->
  join (join save_path full_type_info) name
  = save_path +:+ "/" +:+ full_type_info +:+ "/" +:+ name.
Proof.
  intros Hne Hend Hfs Hfe Hfn Hname.
  assert (Hinner : join save_path full_type_info
                   = save_path +:+ String "/" full_type_info).
  { unfold join. now rewrite Hfs, Hne, Hend. }
  rewrite Hinner. unfold join at 1. rewrite Hname.
  destruct full_type_info as [|c f]; [contradiction |].
  rewrite eqb_empty_append, endswith_slash_append.
  change (endswith_slash (String "/" (String c f)))
    with (endswith_slash (String c f)).
  rewrite Hfe. cbn [orb]. now rewrite !append_assoc.
Qed.

(** C3. When the primary response (status 200) has a content type with
    ["image"] or ["audio"], the fetch is the direct-download branch, whatever
    the URL; for ["image/jpeg"], when the folder is created, the file opens,
    the writes succeed and the stream ends without an error, the body is in
    the file [join (join save_path "image/jpeg") (file_name + ".jpeg")], which
    is [save_path/image/jpeg/file_name.jpeg] for a plain save path and name,
    and the result is [{url: the response's URL, file_info: "image/jpeg"}]. *)
Theorem get_info_direct_download (env : Env) (url0 save_path file_name : string)
    (cookies : option (gmap string string)) (w : World)
    (response : Response) (content_type : string) :
  http env Primary (primary_request url0) = Ok response ->
  status response = 200%Z ->
  headers response !! "content-type" = Some content_type ->
  contains "image" content_type || contains "audio" content_type = true ->
  get_info env url0 save_path file_name cookies w
  = try_except
      (async_with EvAcquire EvRelease
         (async_with EvSessionOpen EvSessionClose
            (let! _ := emit (EvRequest Primary (primary_request url0)) in
             direct_download env response content_type save_path file_name)))
      (fun _ => ret (download_result url0 "error")) w
  /\ (let target := join (join save_path "image/jpeg") (file_name +:+ ".jpeg") in
      content_type = "image/jpeg" ->
      create_folder env (join save_path "image/jpeg") = Ok tt ->
      open_wb env target = Ok tt ->
      (forall data, In data (content response) -> write env target data = Ok tt) ->
      content_error response = None ->
      let out := get_info env url0 save_path file_name cookies w in
      snd out = Ok (download_result (url response) "image/jpeg")
      /\ files (fst out) = <[target := joined (content response)]> (files w)
      /\ (String.eqb save_path "" = false -> endswith_slash save_path = false ->
          startswith "/" file_name = false ->
          target = save_path +:+ "/image/jpeg/" +:+ file_name +:+ ".jpeg")).
Proof.
  intros Hhttp Hstatus Hct Hkind.
  assert (Hrun : get_info env url0 save_path file_name cookies w
    = try_except
        (async_with EvAcquire EvRelease
           (async_with EvSessionOpen EvSessionClose
              (let! _ := emit (EvRequest Primary (primary_request url0)) in
               direct_download env response content_type save_path file_name)))
        (fun _ => ret (download_result url0 "error")) w).
  { io_unfold. fold (primary_request url0). cbn [fst snd].
    rewrite Hhttp, Hstatus. cbn [Z.eqb Pos.eqb].
    rewrite (getitem_Some _ _ _ Hct). cbn [existsb].
    rewrite orb_false_r, Hkind.
    destruct (direct_download env response content_type save_path file_name
                (log (log (log w [EvAcquire]) [EvSessionOpen])
                   [EvRequest Primary (primary_request url0)]))
      as [w' [d | e]]; reflexivity. }
  split; [exact Hrun |].
  intros target -> Hfolder Hopen Hwrite Herr out. subst out. rewrite Hrun.
  unfold try_except, async_with, direct_download.
  unfold bind, emit, lift, tools_create_folder.
  change (get_response_info "image/jpeg")
    with (Ok (<["full_type_info" := "image/jpeg"]>
                (<["extension" := "jpeg"]>
                   (<["data_type" := "image"]> (∅ : gmap string string))))).
  cbv beta iota.
  change (getitem _ "full_type_info") with (Ok "image/jpeg").
  cbv beta iota. rewrite Hfolder.
  change (getitem _ "extension") with (Ok "jpeg").
  cbv beta iota. fold target.
  rewrite (downloader_ok env response _ _ _ Hopen Hwrite Herr).
  unfold ret. cbn [fst snd log files folders trace].
  split; [reflexivity |]. split; [reflexivity |].
  intros Hne Hend Hname. unfold target.
  rewrite (join_plain save_path "image/jpeg" (file_name +:+ ".jpeg"));
    try reflexivity; try assumption.
  - easy.
  - now apply startswith_slash_append.
Qed.

(** *** The link resolver *)


(** A viewer page answered with another status than 200 makes the resolver
    fail its assertion. *)
Lemma find_link_by_url_status (env : Env) (url0 : string)
    (cookies : option (gmap string string)) (w : World) (page : Response) :
  http env Viewer (viewer_request url0 cookies) = Ok page ->
  status page <> 200%Z ->
  find_link_by_url env url0 cookies w
  = (log w [EvRequest Viewer (viewer_request url0 cookies)],
     Raise (AssertionError ("Response status: " +:+ pretty (status page)))).
Proof.
  intros Hhttp Hstatus.
  unfold find_link_by_url, session_get.
  fold (viewer_request url0 cookies).
  unfold bind, emit, lift, assert. cbv beta iota.
  rewrite Hhttp. apply Z.eqb_neq in Hstatus. now rewrite Hstatus.
Qed.

(** A viewer page whose title has the error marker makes the resolver fail
    its assertion. *)
Lemma find_link_by_url_denied (env : Env) (url0 : string)
    (cookies : option (gmap string string)) (w : World)
    (page : Response) (content_type body : string) (title : Tag) :
  http env Viewer (viewer_request url0 cookies) = Ok page ->
  status page = 200%Z ->
  headers page !! "content-type" = Some content_type ->
  contains "text/html" content_type = true ->
  text page = Ok body ->
  soup_find "title" (BeautifulSoup env body) = Some title ->
  contains error_marker (tag_text title) = true ->
  find_link_by_url env url0 cookies w
  = (log w [EvRequest Viewer (viewer_request url0 cookies)],
     Raise (AssertionError "Ошибка доступа к документу")).
Proof.
  intros Hhttp Hstatus Hct Hhtml Hbody Htitle Hmarker.
  unfold find_link_by_url, session_get.
  fold (viewer_request url0 cookies).
  unfold bind, emit, lift, assert. cbv beta iota.
  rewrite Hhttp, Hstatus. cbn [Z.eqb Pos.eqb]. unfold ret at 1. cbv beta iota.
  rewrite (getitem_Some _ _ _ Hct), Hhtml, Hbody, Htitle.
  unfold ret at 1. cbv beta iota. now rewrite Hmarker.
Qed.

Lemma find_link_by_url_run (env : Env) (url0 : string)
    (cookies : option (gmap string string)) (w : World) :
  find_link_by_url env url0 cookies w
  = (log w [EvRequest Viewer
              {| req_url := url0; req_timeout := 5; req_cookies := cookies |}],
     resolved_link env url0 cookies).
Proof.
  unfold resolved_link, find_link_by_url, session_get.
  unfold bind, emit, lift, assert, ret, raise. cbv beta iota.
  destruct (http env Viewer _) as [page | e]; [| reflexivity].
  destruct (status page =? 200)%Z; [| reflexivity]. cbv beta iota.
  destruct (getitem (headers page) "content-type") as [ct | e]; [| reflexivity].
  destruct (contains "text/html" ct).
  - destruct (text page) as [body | e]; [| reflexivity]. cbv beta iota.
    destruct (soup_find "title" (BeautifulSoup env body)); [| reflexivity].
    cbv beta iota.
    destruct (negb (contains error_marker (tag_text t))); [| reflexivity].
    cbv beta iota.
    destruct (first_src _ _) as [link |]; [reflexivity |].
    now destruct (negb (url page =? url0)).
  - cbv beta iota. now destruct (negb (url page =? url0)).
Qed.

(** *** The orchestrator on a failing step *)

(** The fetch up to the resolver: a primary response with status 200 and an
    HTML content type, for a URL with the viewer pattern. *)
Lemma get_info_resolve_branch (env : Env) (url0 save_path file_name : string)
    (cookies : option (gmap string string)) (w : World)
    (response : Response) (content_type : string) :
  http env Primary (primary_request url0) = Ok response ->
  status response = 200%Z ->
  headers response !! "content-type" = Some content_type ->
  contains "image" content_type = false ->
  contains "audio" content_type = false ->
  contains "text/html" content_type = true ->
  contains "vk.com/doc" url0 = true ->
  get_info env url0 save_path file_name cookies w
  = try_except
      (async_with EvAcquire EvRelease
         (async_with EvSessionOpen EvSessionClose
            (let! _ := emit (EvRequest Primary (primary_request url0)) in
             resolve_and_download env response save_path file_name cookies)))
      (fun _ => ret (download_result url0 "error")) w.
Proof.
  intros Hhttp Hstatus Hct Himg Haud Hhtml Hvk.
  io_unfold. fold (primary_request url0). cbn [fst snd].
  rewrite Hhttp, Hstatus. cbn [Z.eqb Pos.eqb].
  rewrite (getitem_Some _ _ _ Hct). cbn [existsb].
  rewrite Himg, Haud. cbn [orb]. rewrite Hhtml, Hvk. cbn [andb]. reflexivity.
Qed.

(** C8. When the fetch goes through a viewer page (status 200, HTML) whose
    title has the error marker, the resolver fails with an assertion error
    and the fetch returns [{url: the input URL, file_info: "error"}], having
    written nothing. *)
Theorem get_info_access_denied (env : Env) (url0 save_path file_name : string)
    (cookies : option (gmap string string)) (w : World)
    (response page : Response) (content_type page_type body : string)
    (title : Tag) :
  http env Primary (primary_request url0) = Ok response ->
  status response = 200%Z ->
  headers response !! "content-type" = Some content_type ->
  contains "image" content_type = false ->
  contains "audio" content_type = false ->
  contains "text/html" content_type = true ->
  contains "vk.com/doc" url0 = true ->
  http env Viewer (viewer_request (url response) cookies) = Ok page ->
  status page = 200%Z ->
  headers page !! "content-type" = Some page_type ->
  contains "text/html" page_type = true ->
  text page = Ok body ->
  soup_find "title" (BeautifulSoup env body) = Some title ->
  contains error_marker (tag_text title) = true ->
  (forall w1,
      snd (find_link_by_url env (url response) cookies w1)
      = Raise (AssertionError "Ошибка доступа к документу"))
  /\ snd (get_info env url0 save_path file_name cookies w)
     = Ok (download_result url0 "error")
  /\ files (fst (get_info env url0 save_path file_name cookies w)) = files w.
Proof.
  intros Hhttp Hstatus Hct Himg Haud Hhtml Hvk Hpage Hpstatus Hpct Hphtml
    Hbody Htitle Hmarker.
  split.
  - intros w1.
    now rewrite (find_link_by_url_denied env _ cookies w1 page page_type body title).
  - rewrite (get_info_resolve_branch env url0 save_path file_name cookies w
               response content_type) by assumption.
    unfold try_except. rewrite !async_with_run, bind_emit.
    unfold resolve_and_download.
    rewrite (bind_raise _ _ _ _ _
               (find_link_by_url_denied env _ cookies _ page page_type body title
                  Hpage Hpstatus Hpct Hphtml Hbody Htitle Hmarker)).
    unfold ret. cbn [fst snd log files]. split; reflexivity.
Qed.

(** *** What every run of a fetch does *)

Lemma behaves_ret {A} (a : A) (Q : A -> Prop) : Q a -> behaves (ret a) Q.
Proof.
  intros HQ w. exists []. cbn [ret fst snd].
  rewrite app_nil_r. repeat split; [constructor |].
  now intros a' [= <-].
Qed.

Lemma behaves_lift {A} (r : result A) (Q : A -> Prop) :
  (forall a, r = Ok a -> Q a) -> behaves (lift r) Q.
Proof.
  intros HQ w. exists []. cbn [lift fst snd].
  rewrite app_nil_r. repeat split; [constructor | exact HQ].
Qed.

Lemma behaves_raise {A} (e : exn) (Q : A -> Prop) : behaves (raise e) Q.
Proof. apply (behaves_lift (Raise e)). discriminate. Qed.

Lemma behaves_any {A} (m : IO A) (Q : A -> Prop) :
  behaves m Q -> behaves m (fun _ => True).
Proof.
  intros Hm w. destruct (Hm w) as (evs & Ht & Hn & _). exists evs. auto.
Qed.

Lemma behaves_bind {A B} (m : IO A) (k : A -> IO B)
    (P : A -> Prop) (Q : B -> Prop) :
  behaves m P -> (forall a, P a -> behaves (k a) Q) -> behaves (bind m k) Q.
Proof.
  intros Hm Hk w. destruct (Hm w) as (evs1 & Ht1 & Hn1 & HP).
  unfold bind. destruct (m w) as [w1 [a | e]]; cbn [fst snd] in *.
  - destruct (Hk a (HP a eq_refl) w1) as (evs2 & Ht2 & Hn2 & HQ).
    exists (evs1 ++ evs2)%list. rewrite Ht2, Ht1, app_assoc.
    repeat split; [now apply Forall_app | exact HQ].
  - exists evs1. repeat split; [exact Ht1 | exact Hn1 | discriminate].
Qed.

Lemma behaves_then {A B} (m : IO A) (k : A -> IO B) (Q : B -> Prop) :
  behaves m (fun _ => True) -> (forall a, behaves (k a) Q) ->
  behaves (bind m k) Q.
Proof. intros Hm Hk. apply (behaves_bind m k (fun _ => True)); auto. Qed.

Lemma behaves_emit (e : event) :
  is_network e = true -> behaves (emit e) (fun _ => True).
Proof.
  intros He w. exists [e]. cbn [emit log fst snd trace].
  repeat split. now constructor.
Qed.

Lemma behaves_assert (cond : bool) (msg : string) :
  behaves (assert cond msg) (fun _ => True).
Proof. unfold assert. destruct cond; [now apply behaves_ret | apply behaves_raise]. Qed.

(** An effect on the files and folders alone. *)
Lemma behaves_quiet {A} (m : IO A) :
  (forall w, trace (fst (m w)) = trace w) -> behaves m (fun _ => True).
Proof.
  intros Hm w. exists []. rewrite app_nil_r. repeat split; [apply Hm | constructor].
Qed.

Lemma behaves_session_get (env : Env) (s : site) (target : option string)
    (timeout : Z) (cookies : option (gmap string string)) :
  behaves (session_get env s target timeout cookies) (fun _ => True).
Proof.
  unfold session_get. destruct target; [| apply behaves_raise].
  apply behaves_then; [now apply behaves_emit |].
  intros _. now apply behaves_lift.
Qed.

Lemma behaves_create_folder (env : Env) (path : string) :
  behaves (tools_create_folder env path) (fun _ => True).
Proof.
  apply behaves_quiet. intros w. unfold tools_create_folder.
  now destruct (create_folder env path).
Qed.

Lemma behaves_file_open (env : Env) (p : string) :
  behaves (file_open env p) (fun _ => True).
Proof.
  apply behaves_quiet. intros w. unfold file_open. now destruct (open_wb env p).
Qed.

Lemma behaves_file_write (env : Env) (p data : string) :
  behaves (file_write env p data) (fun _ => True).
Proof.
  apply behaves_quiet. intros w. unfold file_write. now destruct (write env p data).
Qed.

Lemma behaves_write_chunks (env : Env) (p : string) (chunks : list string) :
  behaves (write_chunks env p chunks) (fun _ => True).
Proof.
  induction chunks as [|data chunks IH]; cbn [write_chunks].
  - now apply behaves_ret.
  - apply behaves_then; [now apply behaves_emit |]. intros _.
    apply behaves_then; [apply behaves_file_write |]. intros _. exact IH.
Qed.

Lemma behaves_downloader (env : Env) (response : Response) (path name : string) :
  behaves (downloader env response path name) (fun _ => True).
Proof.
  unfold downloader.
  apply behaves_then; [apply behaves_file_open |]. intros _.
  apply behaves_then; [apply behaves_write_chunks |]. intros _.
  destruct (content_error response); [apply behaves_raise | now apply behaves_ret].
Qed.

Lemma behaves_find_link_by_url (env : Env) (url0 : string)
    (cookies : option (gmap string string)) :
  behaves (find_link_by_url env url0 cookies) (fun _ => True).
Proof.
  unfold find_link_by_url.
  apply behaves_then; [apply behaves_session_get |]. intros response.
  apply behaves_then; [apply behaves_assert |]. intros _.
  apply behaves_then; [now apply behaves_lift |]. intros content_type.
  apply behaves_then.
  - destruct (contains "text/html" content_type); [| now apply behaves_ret].
    apply behaves_then; [now apply behaves_lift |]. intros body.
    apply behaves_then.
    + destruct (soup_find "title" (BeautifulSoup env body));
        [now apply behaves_ret | apply behaves_raise].
    + intros title. apply behaves_then; [apply behaves_assert |].
      intros _. now apply behaves_ret.
  - intros [link |]; [now apply behaves_ret |].
    destruct (negb (url response =? url0)); now apply behaves_ret.
Qed.

Lemma is_record_download_result (u file_info : string) :
  is_record (download_result u file_info).
Proof. now exists u, file_info. Qed.

Lemma behaves_direct_download (env : Env) (response : Response)
    (content_type save_path file_name : string) :
  behaves (direct_download env response content_type save_path file_name)
          is_record.
Proof.
  unfold direct_download.
  apply behaves_then; [now apply behaves_lift |]. intros response_info.
  apply behaves_then; [now apply behaves_lift |]. intros full_type_info.
  apply behaves_then; [apply behaves_create_folder |]. intros _.
  apply behaves_then; [now apply behaves_lift |]. intros extension.
  apply behaves_then; [apply behaves_downloader |]. intros _.
  apply behaves_ret, is_record_download_result.
Qed.

Lemma behaves_resolve_and_download (env : Env) (response : Response)
    (save_path file_name : string) (cookies : option (gmap string string)) :
  behaves (resolve_and_download env response save_path file_name cookies)
          is_record.
Proof.
  unfold resolve_and_download.
  apply behaves_then; [apply behaves_find_link_by_url |]. intros find_res.
  apply behaves_then; [apply behaves_session_get |]. intros response2.
  apply behaves_then; [now apply behaves_lift |]. intros content_type2.
  apply behaves_then; [now apply behaves_lift |]. intros response_info.
  apply behaves_then; [now apply behaves_lift |]. intros full_type_info.
  apply behaves_then; [apply behaves_create_folder |]. intros _.
  apply behaves_then.
  - unfold download_file_name.
    destruct (get_file_name_by_link find_res); [now apply behaves_ret |].
    apply behaves_then; [now apply behaves_lift |]. intros ext.
    now apply behaves_ret.
  - intros name. apply behaves_then; [apply behaves_downloader |]. intros _.
    apply behaves_ret, is_record_download_result.
Qed.

(** The fetch between the opening and the closing of its session. *)
Lemma get_info_try_shape (env : Env) (url0 save_path file_name : string)
    (cookies : option (gmap string string)) :
  exists body : IO (gmap string string),
    get_info_try env url0 save_path file_name cookies
    = async_with EvAcquire EvRelease
        (async_with EvSessionOpen EvSessionClose body)
    /\ behaves body is_record.
Proof.
  eexists. split; [reflexivity |].
  apply behaves_then; [apply behaves_session_get |]. intros response.
  apply (behaves_bind _ _
           (fun first_block => match first_block with
                               | inl d => is_record d
                               | inr _ => True
                               end)).
  - apply behaves_then; [apply behaves_assert |]. intros _.
    apply behaves_then; [now apply behaves_lift |]. intros content_type.
    destruct (existsb _ _); [| now apply behaves_ret].
    apply (behaves_bind _ _ is_record); [apply behaves_direct_download |].
    intros d Hd. now apply behaves_ret.
  - intros [d | target_content_type] Hfirst; [now apply behaves_ret |].
    destruct (_ && _); [apply behaves_resolve_and_download |].
    apply behaves_ret, is_record_download_result.
Qed.

Lemma get_info_try_run (env : Env) (url0 save_path file_name : string)
    (cookies : option (gmap string string)) (w : World) :
  exists mid : list event,
    trace (fst (get_info_try env url0 save_path file_name cookies w))
    = (trace w ++ EvAcquire :: EvSessionOpen :: mid ++ [EvSessionClose; EvRelease])%list
    /\ network_only mid
    /\ (forall d, snd (get_info_try env url0 save_path file_name cookies w) = Ok d ->
                  is_record d).
Proof.
  destruct (get_info_try_shape env url0 save_path file_name cookies)
    as (body & -> & Hbody).
  rewrite !async_with_run. cbn [fst snd].
  destruct (Hbody (log (log w [EvAcquire]) [EvSessionOpen]))
    as (mid & Ht & Hn & HQ).
  exists mid. split; [| split; assumption].
  cbn [log trace]. rewrite Ht. cbn [log trace].
  rewrite <- !app_assoc. reflexivity.
Qed.

(** C1. Every call of [get_info] returns a result record and raises
    nothing; when a step of the fetch raises, whatever the exception, the
    call returns [{url: the input URL, file_info: "error"}]. *)
Theorem get_info_always_returns (env : Env) (url0 save_path file_name : string)
    (cookies : option (gmap string string)) (w : World) :
  (exists (w' : World) (d : gmap string string),
      get_info env url0 save_path file_name cookies w = (w', Ok d)
      /\ is_record d)
  /\ (forall (w1 : World) (e : exn),
        get_info_try env url0 save_path file_name cookies w = (w1, Raise e) ->
        get_info env url0 save_path file_name cookies w
        = (w1, Ok (download_result url0 "error"))).
Proof.
  split.
  - destruct (get_info_try_run env url0 save_path file_name cookies w)
      as (_ & _ & _ & HQ).
    unfold get_info, try_except.
    destruct (get_info_try env url0 save_path file_name cookies w)
      as [w' [d | e]]; cbn [snd] in HQ.
    + exists w', d. split; [reflexivity | now apply HQ].
    + exists w', (download_result url0 "error").
      split; [reflexivity | apply is_record_download_result].
  - intros w1 e Hraise. unfold get_info, try_except. now rewrite Hraise.
Qed.

(** The theorem on a network that fails the primary request. *)
Lemma get_info_always_returns_witness :
  get_info env_offline "https://host/a.jpg" "save" "a" None empty_world
  = (log empty_world
       [EvAcquire; EvSessionOpen;
        EvRequest Primary (primary_request "https://host/a.jpg");
        EvSessionClose; EvRelease],
     Ok (download_result "https://host/a.jpg" "error")).
Proof.
  apply (proj2 (get_info_always_returns env_offline "https://host/a.jpg"
                  "save" "a" None empty_world)
           _ (ClientError "Cannot connect to host")).
  reflexivity.
Defined.

(** *** Status of the responses *)

(** A primary response with another status than 200 gives the error record
    for the input URL. *)
Lemma get_info_primary_status (env : Env) (url0 save_path file_name : string)
    (cookies : option (gmap string string)) (w : World) (response : Response) :
  http env Primary (primary_request url0) = Ok response ->
  status response <> 200%Z ->
  get_info env url0 save_path file_name cookies w
  = (log w [EvAcquire; EvSessionOpen; EvRequest Primary (primary_request url0);
            EvSessionClose; EvRelease],
     Ok (download_result url0 "error")).
Proof.
  intros Hhttp Hstatus. apply Z.eqb_neq in Hstatus.
  io_unfold. fold (primary_request url0). cbn [fst snd].
  rewrite Hhttp, Hstatus. rewrite !log_log. reflexivity.
Qed.

(** A viewer page with another status than 200 gives the error record for
    the input URL. *)
Lemma get_info_viewer_status (env : Env) (url0 save_path file_name : string)
    (cookies : option (gmap string string)) (w : World)
    (response page : Response) (content_type : string) :
  http env Primary (primary_request url0) = Ok response ->
  status response = 200%Z ->
  headers response !! "content-type" = Some content_type ->
  contains "image" content_type = false ->
  contains "audio" content_type = false ->
  contains "text/html" content_type = true ->
  contains "vk.com/doc" url0 = true ->
  http env Viewer (viewer_request (url response) cookies) = Ok page ->
  status page <> 200%Z ->
  snd (get_info env url0 save_path file_name cookies w)
  = Ok (download_result url0 "error").
Proof.
  intros Hhttp Hstatus Hct Himg Haud Hhtml Hvk Hpage Hpstatus.
  rewrite (get_info_resolve_branch env url0 save_path file_name cookies w
             response content_type) by assumption.
  unfold try_except. rewrite !async_with_run, bind_emit.
  unfold resolve_and_download.
  rewrite (bind_raise _ _ _ _ _
             (find_link_by_url_status env _ cookies _ page Hpage Hpstatus)).
  reflexivity.
Qed.

(** C2, at the follow-up GET the code has no status check: a viewer page
    with an [iframe] whose link is answered with status 404 and an HTML
    error page. The fetch stores the error page and reports its content
    type, not ["error"]. *)
Theorem get_info_followup_status_unchecked :
  let out := get_info (env_viewer followup_not_found)
               "https://vk.com/doc1_2" "save" "a" None empty_world in
  status followup_not_found = 404%Z
  /\ snd out = Ok (download_result "https://cdn/doc123" "text/html")
  /\ snd out <> Ok (download_result "https://vk.com/doc1_2" "error")
  /\ files (fst out) !! "save/text/html/doc123" = Some "Not Found".
Proof.
  cbv zeta. split; [reflexivity |].
  assert (Hout : snd (get_info (env_viewer followup_not_found)
                        "https://vk.com/doc1_2" "save" "a" None empty_world)
                 = Ok (download_result "https://cdn/doc123" "text/html"))
    by (vm_compute; reflexivity).
  split; [exact Hout |]. split.
  - rewrite Hout. intros H.
    apply (f_equal (fun r => match r with
                             | Ok d => d !! "file_info"
                             | Raise _ => None
                             end)) in H.
    vm_compute in H. discriminate H.
  - vm_compute. reflexivity.
Qed.

(** *** The name of a resolved download *)

Lemma session_get_ok (env : Env) (s : site) (u : string) (timeout : Z)
    (cookies : option (gmap string string)) (w : World) (response : Response) :
  http env s {| req_url := u; req_timeout := timeout; req_cookies := cookies |}
  = Ok response ->
  session_get env s (Some u) timeout cookies w
  = (log w [EvRequest s {| req_url := u; req_timeout := timeout;
                           req_cookies := cookies |}], Ok response).
Proof. intros H. unfold session_get. rewrite bind_emit. unfold lift. now rewrite H. Qed.

Lemma bind_lift {A B} (a : A) (k : A -> IO B) (w : World) :
  bind (lift (Ok a)) k w = k a w.
Proof. reflexivity. Qed.

Lemma download_file_name_of_link (s file_name : string)
    (response_info : gmap string string) :
  exists name,
    get_file_name_by_link (Some s) = Some name
    /\ download_file_name (Some s) file_name response_info = ret name.
Proof.
  destruct (get_file_name_by_link_try_ok s) as [name Hname].
  exists name. unfold download_file_name, get_file_name_by_link.
  now rewrite Hname.
Qed.

(** C10. On a string the [try] block of the extractor ends normally and
    the extractor does not return [None]; so the resolve-and-download branch
    names the file by the extractor's result and not by the fallback
    [file_name.extension], also when that result is the empty string, as it
    is for a link that ends in ["/"]: once the resolver has returned a link
    and the follow-up GET is answered with a content type that parses, the
    fetch is the three requests, the folder creation and the download under
    the extracted name. *)
Theorem fallback_name_never_used :
  (forall s : string, exists name : string,
      get_file_name_by_link_try (Some s) = Ok name
      /\ get_file_name_by_link (Some s) = Some name)
  /\ (forall (s file_name : string) (response_info : gmap string string),
        exists name : string,
          get_file_name_by_link (Some s) = Some name
          /\ download_file_name (Some s) file_name response_info = ret name)
  /\ (forall (s file_name : string) (response_info : gmap string string),
        get_file_name_by_link (Some (s +:+ "/")) = Some ""
        /\ download_file_name (Some (s +:+ "/")) file_name response_info = ret "")
  /\ (forall (env : Env) (url0 save_path file_name : string)
             (cookies : option (gmap string string)) (w : World)
             (response response2 : Response)
             (content_type link content_type2 full_type_info name : string)
             (response_info : gmap string string),
        http env Primary (primary_request url0) = Ok response ->
        status response = 200%Z ->
        headers response !! "content-type" = Some content_type ->
        contains "image" content_type = false ->
        contains "audio" content_type = false ->
        contains "text/html" content_type = true ->
        contains "vk.com/doc" url0 = true ->
        resolved_link env (url response) cookies = Ok (Some link) ->
        http env FollowUp (followup_request link) = Ok response2 ->
        headers response2 !! "content-type" = Some content_type2 ->
        get_response_info content_type2 = Ok response_info ->
        response_info !! "full_type_info" = Some full_type_info ->
        get_file_name_by_link (Some link) = Some name ->
        get_info env url0 save_path file_name cookies w
        = try_except
            (async_with EvAcquire EvRelease
               (async_with EvSessionOpen EvSessionClose
                  (let! _ := emit (EvRequest Primary (primary_request url0)) in
                   let! _ := emit (EvRequest Viewer
                                     (viewer_request (url response) cookies)) in
                   let! _ := emit (EvRequest FollowUp (followup_request link)) in
                   let! _ := tools_create_folder env
                               (join save_path full_type_info) in
                   let! _ := downloader env response2
                               (join save_path full_type_info) name in
                   ret (download_result (url response2) full_type_info))))
            (fun _ => ret (download_result url0 "error")) w).
Proof.
  split; [| split; [| split]].
  - intros s. destruct (get_file_name_by_link_try_ok s) as [name Hname].
    exists name. split; [exact Hname |].
    unfold get_file_name_by_link. now rewrite Hname.
  - intros s file_name response_info. apply download_file_name_of_link.
  - intros s file_name response_info.
    split; [apply get_file_name_trailing_slash |].
    unfold download_file_name. now rewrite get_file_name_trailing_slash.
  - intros env url0 save_path file_name cookies w response response2
      content_type link content_type2 full_type_info name response_info
      Hhttp Hstatus Hct Himg Haud Hhtml Hvk Hlink Hfollow Hct2 Hinfo Hfull Hname.
    rewrite (get_info_resolve_branch env url0 save_path file_name cookies w
               response content_type) by assumption.
    unfold try_except. rewrite !async_with_run, !bind_emit.
    unfold resolve_and_download.
    assert (Hfind : forall w0,
               find_link_by_url env (url response) cookies w0
               = (log w0 [EvRequest Viewer (viewer_request (url response) cookies)],
                  Ok (Some link)))
      by (intros w0; now rewrite find_link_by_url_run, Hlink).
    rewrite (bind_ok _ _ _ _ _ (Hfind _)).
    rewrite (bind_ok _ _ _ _ _
               (session_get_ok env FollowUp link 15 None _ response2 Hfollow)).
    rewrite (getitem_Some _ _ _ Hct2), bind_lift, Hinfo, bind_lift.
    rewrite (getitem_Some _ _ _ Hfull), bind_lift.
    unfold download_file_name. rewrite Hname. reflexivity.
Qed.

(** C10 on the viewer page whose [iframe] leads to the audio file. *)
Lemma fallback_name_never_used_witness :
  get_file_name_by_link (Some "https://cdn/doc123") = Some "doc123"
  /\ snd (get_info (env_viewer followup_audio) "https://vk.com/doc1_2" "save" "a"
            None empty_world)
     = Ok (download_result "https://cdn/doc123" "audio/mpeg")
  /\ files (fst (get_info (env_viewer followup_audio) "https://vk.com/doc1_2"
                   "save" "a" None empty_world))
     = <["save/audio/mpeg/doc123" := "ID3data"]> ∅.
Proof.
  split; [reflexivity |].
  rewrite (proj2 (proj2 (proj2 fallback_name_never_used))
             (env_viewer followup_audio) "https://vk.com/doc1_2" "save" "a" None
             empty_world
             (example_response 200 "text/html; charset=utf-8"
                "https://vk.com/doc1_2" ["<html>"])
             followup_audio "text/html; charset=utf-8" "https://cdn/doc123"
             "audio/mpeg" "audio/mpeg" "doc123"
             (<["full_type_info" := "audio/mpeg"]>
                (<["extension" := "mpeg"]> (<["data_type" := "audio"]> ∅)))
             eq_refl eq_refl eq_refl eq_refl eq_refl eq_refl eq_refl
             eq_refl eq_refl eq_refl eq_refl eq_refl eq_refl).
  split; reflexivity.
Defined.

(** *** Witnesses *)

(** C7 on a PDF served by a host that is not the viewer. *)
Lemma get_info_not_parse_witness :
  snd (get_info env_pdf "https://host/a.pdf" "save" "a" None empty_world)
  = Ok (download_result "https://host/a.pdf" "not_parse")
  /\ files (fst (get_info env_pdf "https://host/a.pdf" "save" "a" None empty_world))
     = files empty_world.
Proof.
  destruct (get_info_not_parse env_pdf "https://host/a.pdf" "save" "a" None
              empty_world
              (example_response 200 "application/pdf" "https://host/a.pdf" ["%PDF"])
              "application/pdf"
              eq_refl eq_refl eq_refl eq_refl eq_refl eq_refl)
    as (Hres & Hfiles & _).
  split; [exact Hres | exact Hfiles].
Defined.

(** C3 on a JPEG image. *)
Lemma get_info_direct_download_witness :
  snd (get_info env_jpeg "https://host/a.jpg" "save" "a" None empty_world)
  = Ok (download_result "https://host/a.jpg" "image/jpeg")
  /\ files (fst (get_info env_jpeg "https://host/a.jpg" "save" "a" None empty_world))
     = <["save/image/jpeg/a.jpeg" := "abcd"]> ∅.
Proof.
  destruct (get_info_direct_download env_jpeg "https://host/a.jpg" "save" "a" None
              empty_world
              (example_response 200 "image/jpeg" "https://host/a.jpg" ["ab"; "cd"])
              "image/jpeg" eq_refl eq_refl eq_refl eq_refl)
    as [_ Hjpeg].
  destruct (Hjpeg eq_refl eq_refl eq_refl (fun _ _ => eq_refl) eq_refl)
    as (Hres & Hfiles & _).
  split; [exact Hres | exact Hfiles].
Defined.



(** C8 on a page titled with the error marker. *)
Lemma get_info_access_denied_witness :
  snd (get_info env_denied "https://vk.com/doc1_2" "save" "a" None empty_world)
  = Ok (download_result "https://vk.com/doc1_2" "error").
Proof.
  exact (proj1 (proj2
    (get_info_access_denied env_denied "https://vk.com/doc1_2" "save" "a" None
       empty_world
       (example_response 200 "text/html; charset=utf-8" "https://vk.com/doc1_2" ["<html>"])
       (example_response 200 "text/html" "https://vk.com/doc1_2" ["<html>"])
       "text/html; charset=utf-8" "text/html" "<html>"
       (example_tag "title" "Ошибка | ВКонтакте" None)
       eq_refl eq_refl eq_refl eq_refl eq_refl eq_refl eq_refl
       eq_refl eq_refl eq_refl eq_refl eq_refl eq_refl eq_refl))).
Defined.

End Runs.

(** ** Concurrent fetches *)

Section Concurrency.

Lemma get_info_world (env : Env) (url0 save_path file_name : string)
    (cookies : option (gmap string string)) (w : World) :
  fst (get_info env url0 save_path file_name cookies w)
  = fst (get_info_try env url0 save_path file_name cookies w).
Proof.
  unfold get_info, try_except.
  now destruct (get_info_try env url0 save_path file_name cookies w) as [w' [d | e]].
Qed.

Lemma fetch_events_protocol (c : Call) : protocol (fetch_events c).
Proof.
  unfold fetch_events. rewrite get_info_world.
  destruct (get_info_try_run (call_env c) (call_url c) (call_save_path c)
              (call_file_name c) (call_cookies c) empty_world)
    as (mid & Ht & Hn & _).
  exists mid. split; [exact Ht | exact Hn].
Qed.

Lemma occurrences_app (p : event -> bool) (a b : list event) :
  occurrences p (a ++ b) = occurrences p a + occurrences p b.
Proof. unfold occurrences. now rewrite List.filter_app, length_app. Qed.

Lemma occurrences_network (p : event -> bool) (mid : list event) :
  (forall e, is_network e = true -> p e = false) ->
  network_only mid -> occurrences p mid = 0.
Proof.
  intros Hp Hmid. unfold occurrences.
  induction Hmid as [|e mid He _ IH]; [reflexivity |].
  cbn [List.filter]. now rewrite (Hp e He).
Qed.

(** Where a fetch can stand in its protocol. *)
Lemma protocol_position (past rest : list event) :
  protocol (past ++ rest) ->
  (past = [] /\ exists rest', rest = EvAcquire :: rest')
  \/ (past = [EvAcquire] /\ exists rest', rest = EvSessionOpen :: rest')
  \/ (exists seen e rest',
        past = EvAcquire :: EvSessionOpen :: seen /\ network_only seen
        /\ rest = e :: rest' /\ (is_network e = true \/ e = EvSessionClose))
  \/ (exists mid,
        past = EvAcquire :: EvSessionOpen :: mid ++ [EvSessionClose]
        /\ network_only mid /\ rest = [EvRelease])
  \/ (exists mid,
        past = EvAcquire :: EvSessionOpen :: mid ++ [EvSessionClose; EvRelease]
        /\ network_only mid /\ rest = []).
Proof.
  intros (mid & Heq & Hmid).
  destruct past as [|e1 past]; [left; split; [reflexivity | eauto] |].
  right. injection Heq as -> Heq.
  destruct past as [|e2 past]; [left; split; [reflexivity | eauto] |].
  right. injection Heq as -> Heq.
  apply app_eq_app in Heq as (l & [[-> Hl] | [-> ->]]).
  - destruct l as [|x l].
    + left. exists mid, EvSessionClose, [EvRelease].
      rewrite app_nil_r. cbn [app] in Hl. subst rest. auto.
    + injection Hl as <- Hl. right.
      destruct l as [|y l].
      * left. exists mid. cbn [app] in Hl. subst rest. auto.
      * injection Hl as <- Hl. right. exists mid.
        symmetry in Hl. apply app_eq_nil in Hl as [-> ->]. auto.
  - left. destruct l as [|x l].
    + exists past, EvSessionClose, [EvRelease]. rewrite app_nil_r in Hmid. auto.
    + exists past, x, (l ++ [EvSessionClose; EvRelease])%list.
      pose proof Hmid as Hx. unfold network_only in Hx.
      rewrite Forall_app, Forall_cons in Hx. destruct Hx as (Hpast & Hx & _).
      repeat split; auto.
Qed.

Lemma occurrences_cons (p : event -> bool) (e : event) (l : list event) :
  occurrences p (e :: l) = (if p e then 1 else 0) + occurrences p l.
Proof. unfold occurrences. cbn [List.filter]. now destruct (p e). Qed.

Lemma occurrences_nil (p : event -> bool) : occurrences p [] = 0.
Proof. reflexivity. Qed.

Ltac count_events Hnet :=
  unfold holds_permit, session_active; cbn [done];
  repeat (rewrite occurrences_app || rewrite occurrences_cons
          || rewrite occurrences_nil);
  rewrite ?(occurrences_network is_acquire _ (fun e => ltac:(now destruct e)) Hnet),
          ?(occurrences_network is_release _ (fun e => ltac:(now destruct e)) Hnet),
          ?(occurrences_network is_open _ (fun e => ltac:(now destruct e)) Hnet),
          ?(occurrences_network is_close _ (fun e => ltac:(now destruct e)) Hnet);
  cbn [is_acquire is_release is_open is_close Nat.add Nat.ltb Nat.leb].

(** A fetch with an open session holds a permit. *)
Lemma session_needs_permit (t : Task) :
  protocol (done t ++ todo t) ->
  session_active t = true -> holds_permit t = true.
Proof.
  destruct t as [past rest]. cbn [done todo]. intros Hp.
  destruct (protocol_position past rest Hp)
    as [[-> _] | [[-> _] | [(seen & e & rest' & -> & Hnet & _)
       | [(mid & -> & Hnet & _) | (mid & -> & Hnet & _)]]]].
  - discriminate.
  - discriminate.
  - intros _. count_events Hnet. reflexivity.
  - intros _. count_events Hnet. reflexivity.
  - count_events Hnet. discriminate.
Qed.

(** Taking the permit: the fetch held none before and holds one after. *)
Lemma acquire_takes_permit (past rest : list event) :
  protocol (past ++ EvAcquire :: rest) ->
  holds_permit {| done := past; todo := EvAcquire :: rest |} = false
  /\ holds_permit {| done := past ++ [EvAcquire]; todo := rest |} = true.
Proof.
  intros Hp.
  destruct (protocol_position past _ Hp)
    as [[-> _] | [[_ (r & Hr)] | [(seen & e & rest' & _ & _ & Hr & He)
       | [(mid & _ & _ & Hr) | (mid & _ & _ & Hr)]]]];
    try discriminate Hr.
  - split; reflexivity.
  - injection Hr as <- _. destruct He as [He | He]; discriminate He.
Qed.

(** Giving the permit back: the fetch held one before and none after. *)
Lemma release_returns_permit (past rest : list event) :
  protocol (past ++ EvRelease :: rest) ->
  holds_permit {| done := past; todo := EvRelease :: rest |} = true
  /\ holds_permit {| done := past ++ [EvRelease]; todo := rest |} = false.
Proof.
  intros Hp.
  destruct (protocol_position past _ Hp)
    as [[_ (r & Hr)] | [[_ (r & Hr)] | [(seen & e & rest' & _ & _ & Hr & He)
       | [(mid & -> & Hnet & Hr) | (mid & _ & _ & Hr)]]]];
    try discriminate Hr.
  - injection Hr as <- _. destruct He as [He | He]; discriminate He.
  - split; count_events Hnet; reflexivity.
Qed.

(** Any other event leaves the permit where it is. *)
Lemma other_event_keeps_permit (past rest : list event) (e : event) :
  is_acquire e = false -> is_release e = false ->
  holds_permit {| done := past ++ [e]; todo := rest |}
  = holds_permit {| done := past; todo := e :: rest |}.
Proof.
  intros Ha Hr. unfold holds_permit. cbn [done].
  rewrite !occurrences_app, !occurrences_cons, Ha, Hr, occurrences_nil.
  now rewrite !Nat.add_0_r.
Qed.

Lemma held_permits_split (value : nat) (before after : list Task) (t : Task) :
  held_permits {| permits := value; tasks := before ++ t :: after |}
  = length (List.filter holds_permit before)
    + (if holds_permit t then 1 else 0)
    + length (List.filter holds_permit after).
Proof.
  unfold held_permits. cbn [tasks].
  rewrite List.filter_app, length_app. cbn [List.filter].
  destruct (holds_permit t); cbn [length]; lia.
Qed.

Lemma batch_invariant_start (n : nat) (batch : list Call) :
  batch_invariant n (start n batch).
Proof.
  unfold batch_invariant, start, held_permits. cbn [tasks permits]. split.
  - apply Forall_map, Forall_forall. intros c _. cbn [done todo app].
    apply fetch_events_protocol.
  - induction batch as [|c batch IH]; cbn [map List.filter length]; [lia |].
    exact IH.
Qed.

Lemma batch_invariant_step (n : nat) (s s' : System) :
  batch_invariant n s -> step s s' -> batch_invariant n s'.
Proof.
  intros [Hproto Hsum] Hstep.
  destruct Hstep as [value value' before after past rest e Hsema].
  cbn [tasks permits] in *.
  apply Forall_app in Hproto as [Hbefore Hrest].
  apply Forall_cons in Hrest as [Ht Hafter]. cbn [done todo] in Ht.
  split.
  - cbn [tasks]. apply Forall_app. split; [exact Hbefore |].
    apply Forall_cons. split; [| exact Hafter].
    cbn [done todo]. now rewrite <- app_assoc.
  - rewrite held_permits_split in *. cbn [permits].
    destruct e; cbn [sema_step] in Hsema.
    + destruct value as [|v]; [discriminate Hsema |]. injection Hsema as <-.
      destruct (acquire_takes_permit past rest Ht) as [Hb Ha].
      rewrite Ha. rewrite Hb in Hsum. lia.
    + injection Hsema as <-.
      now rewrite (other_event_keeps_permit past rest EvSessionOpen).
    + injection Hsema as <-.
      now rewrite (other_event_keeps_permit past rest (EvRequest s r)).
    + injection Hsema as <-.
      now rewrite (other_event_keeps_permit past rest (EvRead chunk)).
    + injection Hsema as <-.
      now rewrite (other_event_keeps_permit past rest EvSessionClose).
    + injection Hsema as <-.
      destruct (release_returns_permit past rest Ht) as [Hb Ha].
      rewrite Ha. rewrite Hb in Hsum. lia.
Qed.

Lemma batch_invariant_reachable (n : nat) (batch : list Call) (s : System) :
  rtc step (start n batch) s -> batch_invariant n s.
Proof.
  intros Hrun.
  apply (rtc_ind_r (R := step) (batch_invariant n) (start n batch));
    [| | exact Hrun].
  - apply batch_invariant_start.
  - intros s1 s2 _ Hstep Hinv. exact (batch_invariant_step n s1 s2 Hinv Hstep).
Qed.

Lemma active_le_held (s : System) :
  Forall (fun t => protocol (done t ++ todo t)) (tasks s) ->
  active_sessions s <= held_permits s.
Proof.
  unfold active_sessions, held_permits.
  induction 1 as [|t ts Ht _ IH]; [reflexivity |].
  cbn [List.filter].
  destruct (session_active t) eqn:Hact.
  - rewrite (session_needs_permit t Ht Hact). cbn [length]. lia.
  - destruct (holds_permit t); cbn [length]; lia.
Qed.

(** C9. Every fetch, whatever its environment answers, takes the permit,
    then opens its session, then does its requests and reads, then closes
    the session, then gives the permit back; and in every state of a batch
    run on a semaphore of [n] permits, at most [n] sessions are open, each
    open session belongs to a fetch that holds a permit, and the free and
    held permits add up to [n]. *)
Theorem semaphore_bounds_sessions :
  (forall c : Call, exists mid : list event,
      fetch_events c
      = EvAcquire :: EvSessionOpen :: (mid ++ [EvSessionClose; EvRelease])%list
      /\ network_only mid)
  /\ (forall (n : nat) (batch : list Call) (s : System),
        rtc step (start n batch) s ->
        active_sessions s <= n
        /\ Forall (fun t => session_active t = true -> holds_permit t = true)
                  (tasks s)
        /\ permits s + held_permits s = n).
Proof.
  split; [exact fetch_events_protocol |].
  intros n batch s Hrun.
  destruct (batch_invariant_reachable n batch s Hrun) as [Hproto Hsum].
  split; [| split; [| exact Hsum]].
  - pose proof (active_le_held s Hproto). lia.
  - eapply Forall_impl; [exact Hproto |].
    intros t Ht. now apply session_needs_permit.
Qed.

(** C9 on a batch of two fetches and one permit, the first fetch in its
    session. *)
Lemma semaphore_bounds_sessions_witness :
  rtc step (start 1 example_batch) (example_running example_batch)
  /\ active_sessions (example_running example_batch) <= 1.
Proof.
  assert (Hrun : rtc step (start 1 example_batch) (example_running example_batch)).
  { eapply rtc_l.
    - exact (step_task 1 0 []
               (map (fun c => {| done := []; todo := fetch_events c |})
                    (tl example_batch))
               [] (tl (fetch_events (hd (Build_Call env_offline "" "" "" None)
                                        example_batch)))
               EvAcquire eq_refl).
    - eapply rtc_l; [| apply rtc_refl].
      exact (step_task 0 0 []
               (map (fun c => {| done := []; todo := fetch_events c |})
                    (tl example_batch))
               [EvAcquire]
               (tl (tl (fetch_events (hd (Build_Call env_offline "" "" "" None)
                                         example_batch))))
               EvSessionOpen eq_refl). }
  split; [exact Hrun |].
  exact (proj1 (proj2 semaphore_bounds_sessions 1 example_batch _ Hrun)).
Defined.

End Concurrency.

(** * Further properties of the module *)

(** ** The parsers on arbitrary input *)

Section Parsers.

Import PyStr.

Lemma take_drop (n : nat) (s : string) : take n s +:+ drop n s = s.
Proof.
  revert n. induction s as [|c s IH]; intros [|n]; cbn [take drop append];
    try reflexivity.
  now rewrite IH.
Qed.

Lemma take_all (s : string) : take (String.length s) s = s.
Proof. induction s as [|c s IH]; cbn [String.length take]; [reflexivity | now rewrite IH]. Qed.

Lemma startswith_take (sub : string) (n : nat) (s : string) :
  startswith sub (take n s) = true -> startswith sub s = true.
Proof.
  revert n s. induction sub as [|x sub IH]; intros n s H.
  - apply startswith_nil.
  - destruct n as [|n], s as [|c s]; cbn [take] in H; try discriminate H.
    cbn [startswith String.prefix] in *.
    destruct (ascii_dec x c); [| discriminate H]. exact (IH n s H).
Qed.

(** A prefix of a string free of a pattern is free of it, for a pattern
    that is not empty. *)
Lemma find_index_take_none (sub : string) (n : nat) (s : string) :
  sub <> "" -> find_index sub s = None -> find_index sub (take n s) = None.
Proof.
  intros Hsub. revert n. induction s as [|c s IH]; intros n Hs.
  - destruct n; exact Hs.
  - apply find_index_None_inv in Hs as [Hpre Hs].
    destruct n as [|n]; cbn [take].
    + destruct sub; [contradiction | reflexivity].
    + cbn [find_index].
      destruct (startswith sub (String c (take n s))) eqn:Hst.
      * apply (startswith_take sub (S n) (String c s)) in Hst. congruence.
      * now rewrite (IH n Hs).
Qed.

(** What precedes the first occurrence of a pattern is free of it. *)
Lemma find_index_take_first (sub : string) (s : string) :
  sub <> "" ->
  forall i, find_index sub s = Some i -> find_index sub (take i s) = None.
Proof.
  intros Hsub. induction s as [|c s IH]; intros i Hi.
  - cbn [find_index] in Hi.
    destruct (startswith sub "") eqn:Hst; [| discriminate Hi].
    destruct sub; [contradiction | discriminate Hst].
  - cbn [find_index] in Hi.
    destruct (startswith sub (String c s)) eqn:Hst.
    + injection Hi as <-. destruct sub; [contradiction | reflexivity].
    + destruct (find_index sub s) as [j|] eqn:Hj; [| discriminate Hi].
      injection Hi as <-. cbn [take find_index].
      destruct (startswith sub (String c (take j s))) eqn:Hst'.
      * apply (startswith_take sub (S j) (String c s)) in Hst'. congruence.
      * now rewrite (IH j eq_refl).
Qed.

Lemma char_free_app (d : ascii) (a b : string) :
  find_index (String d "") a = None ->
  find_index (String d "") b = None ->
  find_index (String d "") (a +:+ b) = None.
Proof.
  intros Ha Hb. induction a as [|c a IH]; [exact Hb |].
  apply find_index_None_inv in Ha as [Hpre Ha].
  cbn [append find_index]. rewrite startswith_char in Hpre |- *.
  destruct (ascii_dec d c); [discriminate Hpre |]. now rewrite (IH Ha).
Qed.

Lemma char_free_snoc (d c : ascii) (a : string) :
  find_index (String d "") a = None -> d <> c ->
  find_index (String d "") (a +:+ String c "") = None.
Proof.
  intros Ha Hc. apply char_free_app; [exact Ha |].
  cbn [find_index]. rewrite startswith_char.
  destruct (ascii_dec d c); [contradiction | reflexivity].
Qed.

(** A split on a character that gives one piece. *)
Lemma split_go_char_one (d : ascii) (s : string) :
  forall cur b,
    split_go (String d "") 0 cur s = [b] ->
    b = cur +:+ s /\ find_index (String d "") s = None.
Proof.
  induction s as [|c s IH]; intros cur b H.
  - cbn [split_go] in H. injection H as <-. now rewrite append_empty_r.
  - cbn [split_go] in H. rewrite startswith_char in H.
    cbn [find_index]. rewrite startswith_char.
    destruct (ascii_dec d c).
    + injection H as _ H. now apply split_go_nonempty in H.
    + destruct (IH _ _ H) as [-> Hs]. rewrite append_assoc, Hs. now split.
Qed.

(** A split on a character that gives two pieces: the pieces are free of
    the character and put the string together again. *)
Lemma split_go_char_two (d : ascii) (s : string) :
  forall cur a b,
    find_index (String d "") cur = None ->
    split_go (String d "") 0 cur s = [a; b] ->
    cur +:+ s = a +:+ String d b
    /\ find_index (String d "") a = None
    /\ find_index (String d "") b = None.
Proof.
  induction s as [|c s IH]; intros cur a b Hcur H.
  - discriminate H.
  - cbn [split_go] in H. rewrite startswith_char in H.
    destruct (ascii_dec d c) as [<- | Hne].
    + injection H as <- H. cbn [String.length Nat.sub] in H.
      destruct (split_go_char_one d s "" b H) as [-> Hs].
      repeat split; assumption.
    + destruct (IH _ a b (char_free_snoc d c cur Hcur Hne) H) as (Heq & Ha & Hb).
      rewrite append_assoc in Heq. repeat split; assumption.
Qed.

Lemma unpack2_Ok {A} (l : list A) (a b : A) :
  unpack2 l = Ok (a, b) -> l = [a; b].
Proof.
  destruct l as [|x [|y [|z l]]]; cbn [unpack2]; try discriminate.
  now intros [= -> ->].
Qed.

Lemma find_none_contains (sub s : string) :
  find_index sub s = None -> contains sub s = false.
Proof. unfold contains. now intros ->. Qed.

Lemma find_index_bound (sub s : string) (i : nat) :
  find_index sub s = Some i -> i <= String.length s.
Proof.
  revert i. induction s as [|c s IH]; intros i Hi; cbn [find_index] in Hi.
  - destruct (startswith sub ""); [injection Hi as <-; lia | discriminate Hi].
  - destruct (startswith sub (String c s)); [injection Hi as <-; lia |].
    destruct (find_index sub s) as [j|]; [| discriminate Hi].
    injection Hi as <-. specialize (IH j eq_refl). cbn [String.length]. lia.
Qed.

(** The part of a content type that the parser splits: what precedes the
    first [";"], or all of it. *)
Lemma type_portion_cases (content_type : string) :
  let find_res := find ";" content_type in
  let full_type_info :=
    if negb (find_res =? -1)%Z then slice_to find_res content_type
    else content_type in
  (exists n, full_type_info = take n content_type)
  /\ find_index ";" full_type_info = None.
Proof.
  cbv zeta. unfold find.
  destruct (find_index ";" content_type) as [i|] eqn:Hi.
  - assert (Hne : negb (Z.of_nat i =? -1)%Z = true)
      by (apply negb_true_iff, Z.eqb_neq; lia).
    rewrite Hne. unfold slice_to, clip.
    destruct (Z.ltb_spec (Z.of_nat i) 0) as [Hneg | _]; [lia |].
    rewrite Nat2Z.id. split; [eauto |].
    rewrite Nat.min_l by exact (find_index_bound _ _ _ Hi).
    now apply find_index_take_first.
  - cbn [Z.eqb negb]. split; [| exact Hi].
    exists (String.length content_type). apply eq_sym, take_all.
Qed.

Lemma drop_min (n : nat) (s : string) :
  drop (Nat.min n (String.length s)) s = drop n s.
Proof.
  revert n. induction s as [|c s IH]; intros [|n]; cbn [String.length Nat.min drop];
    try reflexivity.
  apply IH.
Qed.

(** The parts of a content type that parses. *)
Lemma get_response_info_parts (content_type : string)
    (info : gmap string string) :
  get_response_info content_type = Ok info ->
  exists ty ext : string,
    info !! "data_type" = Some ty
    /\ info !! "extension" = Some ext
    /\ info !! "full_type_info" = Some (ty +:+ "/" +:+ ext)
    /\ contains "/" ty = false
    /\ contains "/" ext = false
    /\ contains ";" (ty +:+ "/" +:+ ext) = false
    /\ exists rest : string, content_type = (ty +:+ "/" +:+ ext) +:+ rest.
Proof.
  unfold get_response_info. cbv zeta.
  destruct (type_portion_cases content_type) as [[n Hn] Hsemi].
  cbv zeta in Hn, Hsemi.
  set (full := if negb (find ";" content_type =? -1)%Z
               then slice_to (find ";" content_type) content_type
               else content_type) in *.
  unfold split. cbn [rbind].
  destruct (unpack2 (split_go "/" 0 "" full)) as [[ty ext] | e] eqn:Hunpack;
    cbn [rbind]; [| discriminate].
  apply unpack2_Ok in Hunpack.
  destruct (split_go_char_two "/" full "" ty ext eq_refl Hunpack)
    as (Heq & Hty & Hext).
  cbn [append] in Heq.
  intros [= <-]. exists ty, ext.
  assert (Hfull : full = ty +:+ "/" +:+ ext) by exact Heq.
  rewrite <- Hfull.
  split; [| split; [| split; [| split; [| split; [| split]]]]].
  - now destruct (negb (find "charset=" content_type =? -1)%Z).
  - now destruct (negb (find "charset=" content_type =? -1)%Z).
  - now destruct (negb (find "charset=" content_type =? -1)%Z).
  - now apply find_none_contains.
  - now apply find_none_contains.
  - now apply find_none_contains.
  - exists (drop n content_type). rewrite Hn. apply eq_sym, take_drop.
Qed.

(** The three fields the parser gives for [ty/ext], whatever else the
    string holds: for parts free of ["/"] and a whole free of [";"]. *)
Lemma get_response_info_fields (ty ext : string) :
  contains "/" ty = false -> contains "/" ext = false ->
  contains ";" (ty +:+ "/" +:+ ext) = false ->
  exists info : gmap string string,
    get_response_info (ty +:+ "/" +:+ ext) = Ok info
    /\ info !! "data_type" = Some ty
    /\ info !! "extension" = Some ext
    /\ info !! "full_type_info" = Some (ty +:+ "/" +:+ ext).
Proof.
  intros Hty Hext Hsemi. unfold get_response_info. cbv zeta.
  rewrite (find_absent ";" _ (contains_false _ _ Hsemi)).
  cbn [Z.eqb Pos.eqb negb]. rewrite (split_type_ext ty ext Hty Hext).
  cbn [rbind unpack2]. eexists. split; [reflexivity |].
  repeat split; now destruct (negb (find "charset=" _ =? -1)%Z).
Qed.

(** X1. A content type that parses has a type portion of the form
    [ty/ext]: [data_type] is [ty], [extension] is [ext], [full_type_info]
    is [ty/ext], neither part holds a ["/"], the whole holds no [";"] and
    starts the header; and [full_type_info] parses again, to the same
    three fields. *)
Theorem get_response_info_shape (content_type : string)
    (info : gmap string string) :
  get_response_info content_type = Ok info ->
  exists ty ext : string,
    info !! "data_type" = Some ty
    /\ info !! "extension" = Some ext
    /\ info !! "full_type_info" = Some (ty +:+ "/" +:+ ext)
    /\ contains "/" ty = false
    /\ contains "/" ext = false
    /\ contains ";" (ty +:+ "/" +:+ ext) = false
    /\ (exists rest : string, content_type = (ty +:+ "/" +:+ ext) +:+ rest)
    /\ (exists again : gmap string string,
          get_response_info (ty +:+ "/" +:+ ext) = Ok again
          /\ again !! "data_type" = Some ty
          /\ again !! "extension" = Some ext
          /\ again !! "full_type_info" = Some (ty +:+ "/" +:+ ext)).
Proof.
  intros Hinfo.
  destruct (get_response_info_parts content_type info Hinfo)
    as (ty & ext & Hd & He & Hf & Hty & Hext & Hsemi & Hrest).
  exists ty, ext. repeat (split; [assumption |]).
  exact (get_response_info_fields ty ext Hty Hext Hsemi).
Qed.

(** The theorem on an HTML content type with a charset. *)
Lemma get_response_info_shape_witness :
  exists ty ext : string,
    (<["full_type_info" := "text/html"]>
       (<["extension" := "html"]>
          (<["data_type" := "text"]>
             (<["encoding" := "utf-8"]> (∅ : gmap string string)))))
      !! "data_type" = Some ty
    /\ contains "/" ext = false.
Proof.
  destruct (get_response_info_shape "text/html; charset=utf-8" _ eq_refl)
    as (ty & ext & Hty & _ & _ & _ & Hext & _ & _ & _).
  exists ty, ext. split; [exact Hty | exact Hext].
Defined.

(** A content type without ["/"] is not parsed. *)
Lemma get_response_info_slashless (content_type : string) :
  contains "/" content_type = false ->
  get_response_info content_type
  = Raise (ValueError "not enough values to unpack (expected 2, got 1)").
Proof.
  intros Hslash. apply contains_false in Hslash.
  unfold get_response_info. cbv zeta.
  destruct (type_portion_cases content_type) as [[n Hn] _]. cbv zeta in Hn.
  rewrite Hn. unfold split. cbn [rbind].
  rewrite split_go_char_none
    by (apply find_index_take_none; [discriminate | exact Hslash]).
  reflexivity.
Qed.

(** X3. In a parsed content type the [encoding] is all that follows the
    first ["charset="], further parameters included, and the key is absent
    when the header has no ["charset="]. *)
Theorem get_response_info_encoding (content_type : string)
    (info : gmap string string) :
  get_response_info content_type = Ok info ->
  info !! "encoding"
  = match find_index "charset=" content_type with
    | Some i => Some (drop (i + 8) content_type)
    | None => None
    end.
Proof.
  unfold get_response_info. cbv zeta. unfold split. cbn [rbind].
  destruct (unpack2 _) as [[ty ext] | e]; cbn [rbind]; [| discriminate].
  intros [= <-]. unfold find.
  destruct (find_index "charset=" content_type) as [i|].
  - assert (Hne : negb (Z.of_nat i =? -1)%Z = true)
      by (apply negb_true_iff, Z.eqb_neq; lia).
    rewrite Hne.
    rewrite !lookup_insert_ne by discriminate. rewrite lookup_insert_eq.
    f_equal. unfold slice_from, clip. cbn [String.length].
    destruct (Z.ltb_spec (Z.of_nat i + Z.of_nat 8) 0) as [Hneg | _]; [lia |].
    rewrite <- Nat2Z.inj_add, Nat2Z.id. apply drop_min.
  - reflexivity.
Qed.

Lemma get_response_info_encoding_witness :
  (<["full_type_info" := "text/html"]>
     (<["extension" := "html"]>
        (<["data_type" := "text"]>
           (<["encoding" := "utf-8; boundary=x"]> (∅ : gmap string string)))))
    !! "encoding" = Some "utf-8; boundary=x".
Proof.
  exact (get_response_info_encoding "text/html; charset=utf-8; boundary=x" _ eq_refl).
Defined.

(** The last piece of a split on a character is free of the character. *)
Lemma item_last_char_free (d : ascii) (s : string) :
  forall cur seg,
    find_index (String d "") cur = None ->
    item_last (split_go (String d "") 0 cur s) = Ok seg ->
    find_index (String d "") seg = None.
Proof.
  induction s as [|c s IH]; intros cur seg Hcur H.
  - cbn in H. now injection H as <-.
  - cbn [split_go] in H. rewrite startswith_char in H.
    destruct (ascii_dec d c) as [<- | Hne].
    + rewrite item_last_cons in H by apply split_go_nonempty.
      exact (IH "" seg eq_refl H).
    + exact (IH _ seg (char_free_snoc d c cur Hcur Hne) H).
Qed.

(** The last piece of a split on ["/"] of [base/seg], for [seg] free of
    ["/"]. *)
Lemma item_last_after_slash (base seg : string) :
  find_index "/" seg = None ->
  forall cur, item_last (split_go "/" 0 cur (base +:+ "/" +:+ seg)) = Ok seg.
Proof.
  intros Hseg. induction base as [|c base IH]; intros cur.
  - cbn [append split_go]. rewrite startswith_char.
    destruct (ascii_dec "/" "/"); [| contradiction].
    cbn [String.length Nat.sub].
    now rewrite (split_go_char_none "/" seg "" Hseg).
  - cbn [append split_go]. rewrite startswith_char.
    destruct (ascii_dec "/" c).
    + rewrite item_last_cons by apply split_go_nonempty. apply IH.
    + apply IH.
Qed.

(** The first occurrence of a pattern after a stretch free of the
    pattern's first character. *)
Lemma find_index_marker (d : ascii) (sub a r : string) :
  find_index (String d "") a = None ->
  find_index (String d sub) (a +:+ String d sub +:+ r) = Some (String.length a).
Proof.
  intros Ha. induction a as [|c a IH].
  - cbn [append find_index String.length].
    assert (Hst : forall x y, startswith x (x +:+ y) = true).
    { induction x as [|z x IHx]; intros y; [apply startswith_nil |].
      cbn [append startswith String.prefix].
      destruct (ascii_dec z z); [apply IHx | contradiction]. }
    change (String d (sub +:+ r)) with (String d sub +:+ r). now rewrite Hst.
  - apply find_index_None_inv in Ha as [Hpre Ha].
    rewrite startswith_char in Hpre.
    cbn [append find_index startswith String.prefix String.length].
    destruct (ascii_dec d c); [discriminate Hpre |].
    cbn [append] in IH. now rewrite (IH Ha).
Qed.

(** X4. The extractor on a link [base/name] gives [name], and on
    [base/name?extra...] it gives [name] too: for a name free of ["/"], and
    of ["?extra"] in the first form, of ["?"] in the second, and a rest
    free of ["/"]. *)
Theorem get_file_name_by_link_last_segment (base name : string) :
  contains "/" name = false ->
  (contains "?extra" name = false ->
   get_file_name_by_link (Some (base +:+ "/" +:+ name)) = Some name)
  /\ (forall rest : string,
        contains "?" name = false -> contains "/" rest = false ->
        get_file_name_by_link (Some (base +:+ "/" +:+ name +:+ "?extra" +:+ rest))
        = Some name).
Proof.
  intros Hslash. apply contains_false in Hslash. split.
  - intros Hextra. apply contains_false in Hextra.
    unfold get_file_name_by_link, get_file_name_by_link_try, split.
    cbn [rbind]. rewrite (item_last_after_slash base name Hslash). cbn [rbind].
    rewrite item_first_hd by apply split_go_nonempty.
    now rewrite split_go_first, Hextra.
  - intros rest Hq Hrest. apply contains_false in Hq, Hrest.
    assert (Hseg : find_index "/" (name +:+ "?extra" +:+ rest) = None).
    { apply char_free_app; [exact Hslash |].
      now apply (char_free_app "/" "?extra" rest). }
    unfold get_file_name_by_link, get_file_name_by_link_try, split.
    cbn [rbind].
    rewrite (item_last_after_slash base _ Hseg). cbn [rbind].
    rewrite item_first_hd by apply split_go_nonempty.
    rewrite split_go_first.
    rewrite (find_index_marker "?" "extra" name rest Hq), take_app.
    reflexivity.
Qed.

Lemma get_file_name_by_link_last_segment_witness :
  get_file_name_by_link (Some ("https://cdn/dir" +:+ "/" +:+ "song.mp3"))
  = Some "song.mp3"
  /\ get_file_name_by_link
       (Some ("https://cdn/dir" +:+ "/" +:+ "song.mp3" +:+ "?extra" +:+ "=abc&x=1"))
     = Some "song.mp3".
Proof.
  destruct (get_file_name_by_link_last_segment "https://cdn/dir" "song.mp3" eq_refl)
    as [Hplain Hextra].
  split; [exact (Hplain eq_refl) | exact (Hextra "=abc&x=1" eq_refl eq_refl)].
Defined.

(** X5. The name the extractor gives for a string holds neither a ["/"]
    nor a ["?extra"]. *)
Theorem get_file_name_by_link_component (s name : string) :
  get_file_name_by_link (Some s) = Some name ->
  contains "/" name = false /\ contains "?extra" name = false.
Proof.
  unfold get_file_name_by_link, get_file_name_by_link_try, split.
  cbn [rbind].
  destruct (item_last (split_go "/" 0 "" s)) as [seg | e] eqn:Hseg;
    cbn [rbind]; [| discriminate].
  rewrite item_first_hd by apply split_go_nonempty.
  rewrite split_go_first. cbn [append]. intros [= <-].
  pose proof (item_last_char_free "/" s "" seg eq_refl Hseg) as Hfree.
  destruct (find_index "?extra" seg) as [i|] eqn:Hi.
  - split; apply find_none_contains.
    + apply find_index_take_none; [discriminate | exact Hfree].
    + apply find_index_take_first; [discriminate | exact Hi].
  - split; apply find_none_contains; assumption.
Qed.

Lemma get_file_name_by_link_component_witness :
  contains "/" "name.ext" = false /\ contains "?extra" "name.ext" = false.
Proof.
  exact (get_file_name_by_link_component
           "https://host/path/name.ext?extra=1" "name.ext" eq_refl).
Defined.

End Parsers.

(** ** Failing steps and successful downloads *)

Section MoreRuns.

Import PyStr.

Ltac run_fetch :=
  unfold get_info, try_except, get_info_try, async_with, session_get,
    bind, emit, lift, assert, ret, raise.

(** X6. A viewer page (status 200, HTML) without a [title] element makes
    the resolver raise [AttributeError], whatever [img] or [iframe] the page
    has and wherever the request ended. *)
Theorem find_link_by_url_no_title (env : Env) (url0 : string)
    (cookies : option (gmap string string)) (w : World)
    (page : Response) (content_type body : string) :
  http env Viewer (viewer_request url0 cookies) = Ok page ->
  status page = 200%Z ->
  headers page !! "content-type" = Some content_type ->
  contains "text/html" content_type = true ->
  text page = Ok body ->
  soup_find "title" (BeautifulSoup env body) = None ->
  find_link_by_url env url0 cookies w
  = (log w [EvRequest Viewer (viewer_request url0 cookies)],
     Raise (AttributeError "'NoneType' object has no attribute 'text'")).
Proof.
  intros Hhttp Hstatus Hct Hhtml Hbody Htitle.
  unfold find_link_by_url, session_get.
  fold (viewer_request url0 cookies).
  unfold bind, emit, lift, assert. cbv beta iota.
  rewrite Hhttp, Hstatus. cbn [Z.eqb Pos.eqb]. unfold ret at 1. cbv beta iota.
  rewrite (getitem_Some _ _ _ Hct), Hhtml, Hbody, Htitle. reflexivity.
Qed.

Lemma find_link_by_url_no_title_witness :
  snd (find_link_by_url env_untitled "https://vk.com/doc1_2" None empty_world)
  = Raise (AttributeError "'NoneType' object has no attribute 'text'").
Proof.
  now rewrite (find_link_by_url_no_title env_untitled "https://vk.com/doc1_2" None
                 empty_world
                 (example_response 200 "text/html" "https://vk.com/doc1_2" ["<html>"])
                 "text/html" "<html>" eq_refl eq_refl eq_refl eq_refl eq_refl eq_refl).
Defined.

(** X7. A primary response (status 200) without a [content-type] header:
    the lookup raises [KeyError] and the fetch returns the error record for
    the input URL, after the primary request only and with the disk as it
    was. *)
Theorem get_info_missing_content_type (env : Env)
    (url0 save_path file_name : string)
    (cookies : option (gmap string string)) (w : World) (response : Response) :
  http env Primary (primary_request url0) = Ok response ->
  status response = 200%Z ->
  headers response !! "content-type" = None ->
  getitem (headers response) "content-type" = Raise (KeyError "content-type")
  /\ get_info env url0 save_path file_name cookies w
     = (log w [EvAcquire; EvSessionOpen; EvRequest Primary (primary_request url0);
               EvSessionClose; EvRelease],
        Ok (download_result url0 "error")).
Proof.
  intros Hhttp Hstatus Hct.
  assert (Hkey : getitem (headers response) "content-type"
                 = Raise (KeyError "content-type"))
    by (unfold getitem; now rewrite Hct).
  split; [exact Hkey |].
  run_fetch. fold (primary_request url0). cbn [fst snd].
  rewrite Hhttp, Hstatus. cbn [Z.eqb Pos.eqb]. rewrite Hkey.
  rewrite !log_log. reflexivity.
Qed.

Lemma get_info_missing_content_type_witness :
  snd (get_info env_no_header "https://host/raw" "save" "a" None empty_world)
  = Ok (download_result "https://host/raw" "error").
Proof.
  now rewrite (proj2 (get_info_missing_content_type env_no_header "https://host/raw"
                        "save" "a" None empty_world bare_response
                        eq_refl eq_refl eq_refl)).
Defined.

(** The fetch in the resolve branch when the resolver gives no link. *)
Lemma get_info_no_link (env : Env) (url0 save_path file_name : string)
    (cookies : option (gmap string string)) (w : World)
    (response : Response) (content_type : string) :
  http env Primary (primary_request url0) = Ok response ->
  status response = 200%Z ->
  headers response !! "content-type" = Some content_type ->
  contains "image" content_type = false ->
  contains "audio" content_type = false ->
  contains "text/html" content_type = true ->
  contains "vk.com/doc" url0 = true ->
  (forall link, resolved_link env (url response) cookies <> Ok (Some link)) ->
  get_info env url0 save_path file_name cookies w
  = (log w [EvAcquire; EvSessionOpen; EvRequest Primary (primary_request url0);
            EvRequest Viewer (viewer_request (url response) cookies);
            EvSessionClose; EvRelease],
     Ok (download_result url0 "error")).
Proof.
  intros Hhttp Hstatus Hct Himg Haud Hhtml Hvk Hnone.
  rewrite (get_info_resolve_branch env url0 save_path file_name cookies w
             response content_type) by assumption.
  unfold try_except. rewrite !async_with_run, bind_emit.
  unfold resolve_and_download.
  pose proof (find_link_by_url_run env (url response) cookies) as Hrun.
  destruct (resolved_link env (url response) cookies) as [[link |] | e].
  - now destruct (Hnone link).
  - rewrite (bind_ok _ _ _ _ _ (Hrun _)).
    rewrite (bind_raise (session_get env FollowUp None 15 None) _ _ _ _ eq_refl).
    cbn [fst snd ret]. rewrite !log_log. reflexivity.
  - rewrite (bind_raise _ _ _ _ _ (Hrun _)).
    cbn [fst snd ret]. rewrite !log_log. reflexivity.
Qed.

(** X9. In the resolve branch, when the resolver raises or returns [None]
    (a page with neither [img] nor [iframe] and no redirect), the fetch
    returns the error record for the input URL; the follow-up GET is not
    sent, and no folder or file is made. *)
Theorem get_info_unresolved (env : Env) (url0 save_path file_name : string)
    (cookies : option (gmap string string)) (w : World)
    (response : Response) (content_type : string) :
  http env Primary (primary_request url0) = Ok response ->
  status response = 200%Z ->
  headers response !! "content-type" = Some content_type ->
  contains "image" content_type = false ->
  contains "audio" content_type = false ->
  contains "text/html" content_type = true ->
  contains "vk.com/doc" url0 = true ->
  (forall link, resolved_link env (url response) cookies <> Ok (Some link)) ->
  let out := get_info env url0 save_path file_name cookies w in
  snd out = Ok (download_result url0 "error")
  /\ files (fst out) = files w
  /\ folders (fst out) = folders w
  /\ trace (fst out)
     = (trace w ++ [EvAcquire; EvSessionOpen;
                    EvRequest Primary (primary_request url0);
                    EvRequest Viewer (viewer_request (url response) cookies);
                    EvSessionClose; EvRelease])%list.
Proof.
  intros Hhttp Hstatus Hct Himg Haud Hhtml Hvk Hnone. cbv zeta.
  rewrite (get_info_no_link env url0 save_path file_name cookies w response
             content_type) by assumption.
  repeat split.
Qed.

Lemma get_info_unresolved_witness :
  resolved_link env_unresolved "https://vk.com/doc1_2" None = Ok None
  /\ snd (get_info env_unresolved "https://vk.com/doc1_2" "save" "a" None empty_world)
     = Ok (download_result "https://vk.com/doc1_2" "error").
Proof.
  split; [reflexivity |].
  refine (proj1 (get_info_unresolved env_unresolved "https://vk.com/doc1_2" "save"
                   "a" None empty_world viewer_primary "text/html; charset=utf-8"
                   eq_refl eq_refl eq_refl eq_refl eq_refl eq_refl eq_refl _)).
  intros link H. discriminate H.
Defined.

(** *** The downloader *)

(** X12. A download that succeeds leaves exactly the body in the file
    [join path name], whatever the file held before, and leaves every other
    file and the folders as they were. *)
Theorem downloader_overwrites (env : Env) (response : Response)
    (path name : string) (w : World) :
  open_wb env (join path name) = Ok tt ->
  (forall data, In data (content response) ->
                write env (join path name) data = Ok tt) ->
  content_error response = None ->
  let out := downloader env response path name w in
  snd out = Ok tt
  /\ files (fst out) !! join path name = Some (joined (content response))
  /\ (forall q, q <> join path name -> files (fst out) !! q = files w !! q)
  /\ folders (fst out) = folders w.
Proof.
  intros Hopen Hwrite Herr. cbv zeta.
  rewrite (downloader_ok env response path name w Hopen Hwrite Herr).
  cbn [fst snd files folders]. repeat split.
  - apply lookup_insert_eq.
  - intros q Hq. now apply lookup_insert_ne.
Qed.

Lemma downloader_overwrites_witness :
  files (fst (downloader env_jpeg
                (example_response 200 "image/jpeg" "https://host/a.jpg" ["ab"; "cd"])
                "save/image/jpeg" "a.jpeg"
                {| files := {["save/image/jpeg/a.jpeg" := "old content"]};
                   folders := ∅; trace := [] |}))
    !! "save/image/jpeg/a.jpeg" = Some "abcd".
Proof.
  refine (proj1 (proj2 (downloader_overwrites env_jpeg
                          (example_response 200 "image/jpeg" "https://host/a.jpg"
                             ["ab"; "cd"])
                          "save/image/jpeg" "a.jpeg" _ eq_refl
                          (fun _ _ => eq_refl) eq_refl))).
Defined.

Lemma downloader_open_error (env : Env) (response : Response)
    (path name : string) (w : World) (e : exn) :
  open_wb env (join path name) = Raise e ->
  downloader env response path name w = (w, Raise e).
Proof.
  intros Hopen. unfold downloader, bind, file_open. now rewrite Hopen.
Qed.

(** A stream that breaks after its chunks: the chunks are in the file and
    the error of the stream is raised. *)
Lemma downloader_stream_error (env : Env) (response : Response)
    (path name : string) (w : World) (e : exn) :
  open_wb env (join path name) = Ok tt ->
  (forall data, In data (content response) ->
                write env (join path name) data = Ok tt) ->
  content_error response = Some e ->
  downloader env response path name w
  = ({| files := <[join path name := joined (content response)]> (files w);
        folders := folders w;
        trace := (trace w ++ map EvRead (content response))%list |}, Raise e).
Proof.
  intros Hopen Hwrite Herr. unfold downloader, bind, file_open.
  rewrite Hopen, (write_chunks_ok env _ _ _ "").
  - rewrite Herr. unfold raise. cbn [files folders trace].
    now rewrite insert_insert_eq.
  - cbn [files]. apply lookup_insert_eq.
  - exact Hwrite.
Qed.

(** The direct-download branch up to the download, for a content type that
    parses and a folder that is created. *)
Lemma direct_download_run (env : Env) (response : Response)
    (content_type save_path file_name full_type_info extension : string)
    (info : gmap string string) (w : World) :
  get_response_info content_type = Ok info ->
  info !! "full_type_info" = Some full_type_info ->
  info !! "extension" = Some extension ->
  create_folder env (join save_path full_type_info) = Ok tt ->
  direct_download env response content_type save_path file_name w
  = (let! _ := downloader env response (join save_path full_type_info)
                 (file_name +:+ "." +:+ extension) in
     ret (download_result (url response) full_type_info))
      {| files := files w;
         folders := {[join save_path full_type_info]} ∪ folders w;
         trace := trace w |}.
Proof.
  intros Hinfo Hfull Hext Hfolder. unfold direct_download.
  rewrite Hinfo, bind_lift, (getitem_Some _ _ _ Hfull), bind_lift.
  unfold bind at 1. unfold tools_create_folder. rewrite Hfolder.
  now rewrite (getitem_Some _ _ _ Hext), bind_lift.
Qed.

(** The fetch in the direct-download branch. *)
Lemma get_info_direct_branch (env : Env) (url0 save_path file_name : string)
    (cookies : option (gmap string string)) (w : World)
    (response : Response) (content_type : string) :
  http env Primary (primary_request url0) = Ok response ->
  status response = 200%Z ->
  headers response !! "content-type" = Some content_type ->
  contains "image" content_type || contains "audio" content_type = true ->
  get_info env url0 save_path file_name cookies w
  = try_except
      (async_with EvAcquire EvRelease
         (async_with EvSessionOpen EvSessionClose
            (let! _ := emit (EvRequest Primary (primary_request url0)) in
             direct_download env response content_type save_path file_name)))
      (fun _ => ret (download_result url0 "error")) w.
Proof.
  intros Hhttp Hstatus Hct Hkind.
  run_fetch. fold (primary_request url0). cbn [fst snd].
  rewrite Hhttp, Hstatus. cbn [Z.eqb Pos.eqb].
  rewrite (getitem_Some _ _ _ Hct). cbn [existsb].
  rewrite orb_false_r, Hkind.
  destruct (direct_download env response content_type save_path file_name
              (log (log (log w [EvAcquire]) [EvSessionOpen])
                 [EvRequest Primary (primary_request url0)]))
    as [w' [d | e]]; reflexivity.
Qed.

(** X14. A direct download whose stream breaks returns the error record
    for the input URL and leaves behind the folder and the file with the
    chunks received: the handler removes nothing. *)
Theorem get_info_partial_file (env : Env) (url0 save_path file_name : string)
    (cookies : option (gmap string string)) (w : World)
    (response : Response)
    (content_type full_type_info extension : string)
    (info : gmap string string) (e : exn) :
  http env Primary (primary_request url0) = Ok response ->
  status response = 200%Z ->
  headers response !! "content-type" = Some content_type ->
  contains "image" content_type || contains "audio" content_type = true ->
  get_response_info content_type = Ok info ->
  info !! "full_type_info" = Some full_type_info ->
  info !! "extension" = Some extension ->
  let folder := join save_path full_type_info in
  let target := join folder (file_name +:+ "." +:+ extension) in
  create_folder env folder = Ok tt ->
  open_wb env target = Ok tt ->
  (forall data, In data (content response) -> write env target data = Ok tt) ->
  content_error response = Some e ->
  let out := get_info env url0 save_path file_name cookies w in
  snd out = Ok (download_result url0 "error")
  /\ files (fst out) = <[target := joined (content response)]> (files w)
  /\ folders (fst out) = {[folder]} ∪ folders w.
Proof.
  intros Hhttp Hstatus Hct Hkind Hinfo Hfull Hext folder target
    Hfolder Hopen Hwrite Herr. cbv zeta.
  rewrite (get_info_direct_branch env url0 save_path file_name cookies w
             response content_type) by assumption.
  unfold try_except. rewrite !async_with_run, bind_emit.
  rewrite (direct_download_run env response content_type save_path file_name
             full_type_info extension info) by assumption.
  rewrite (bind_raise _ _ _ _ _
             (downloader_stream_error env response _ _ _ e Hopen Hwrite Herr)).
  cbn [fst snd log files folders trace ret]. repeat split.
Qed.

Lemma get_info_partial_file_witness :
  snd (get_info env_broken_stream "https://host/a.jpg" "save" "a" None empty_world)
  = Ok (download_result "https://host/a.jpg" "error")
  /\ files (fst (get_info env_broken_stream "https://host/a.jpg" "save" "a" None
                   empty_world))
     = <["save/image/jpeg/a.jpeg" := "abcd"]> ∅.
Proof.
  destruct (get_info_partial_file env_broken_stream "https://host/a.jpg" "save" "a"
              None empty_world broken_jpeg "image/jpeg" "image/jpeg" "jpeg" _
              (ClientError "Response payload is not completed")
              eq_refl eq_refl eq_refl eq_refl eq_refl eq_refl eq_refl
              eq_refl eq_refl (fun _ _ => eq_refl) eq_refl)
    as (Hres & Hfiles & _).
  split; [exact Hres | exact Hfiles].
Defined.

(** X13. A direct download whose file does not open returns the error
    record for the input URL: the folder has been created, but no chunk of
    the body is read and no file is changed. *)
Theorem get_info_open_fails (env : Env) (url0 save_path file_name : string)
    (cookies : option (gmap string string)) (w : World)
    (response : Response)
    (content_type full_type_info extension : string)
    (info : gmap string string) (e : exn) :
  http env Primary (primary_request url0) = Ok response ->
  status response = 200%Z ->
  headers response !! "content-type" = Some content_type ->
  contains "image" content_type || contains "audio" content_type = true ->
  get_response_info content_type = Ok info ->
  info !! "full_type_info" = Some full_type_info ->
  info !! "extension" = Some extension ->
  let folder := join save_path full_type_info in
  create_folder env folder = Ok tt ->
  open_wb env (join folder (file_name +:+ "." +:+ extension)) = Raise e ->
  let out := get_info env url0 save_path file_name cookies w in
  snd out = Ok (download_result url0 "error")
  /\ files (fst out) = files w
  /\ folders (fst out) = {[folder]} ∪ folders w
  /\ trace (fst out)
     = (trace w ++ [EvAcquire; EvSessionOpen;
                    EvRequest Primary (primary_request url0);
                    EvSessionClose; EvRelease])%list.
Proof.
  intros Hhttp Hstatus Hct Hkind Hinfo Hfull Hext folder Hfolder Hopen.
  cbv zeta.
  rewrite (get_info_direct_branch env url0 save_path file_name cookies w
             response content_type) by assumption.
  unfold try_except. rewrite !async_with_run, bind_emit.
  rewrite (direct_download_run env response content_type save_path file_name
             full_type_info extension info) by assumption.
  rewrite (bind_raise _ _ _ _ _
             (downloader_open_error env response _ _ _ e Hopen)).
  cbn [fst snd log files folders trace ret]. repeat split.
  rewrite <- !app_assoc. reflexivity.
Qed.

Lemma get_info_open_fails_witness :
  snd (get_info env_read_only "https://host/a.jpg" "save" "a" None empty_world)
  = Ok (download_result "https://host/a.jpg" "error")
  /\ files (fst (get_info env_read_only "https://host/a.jpg" "save" "a" None
                   empty_world)) = ∅.
Proof.
  destruct (get_info_open_fails env_read_only "https://host/a.jpg" "save" "a" None
              empty_world
              (example_response 200 "image/jpeg" "https://host/a.jpg" ["ab"; "cd"])
              "image/jpeg" "image/jpeg" "jpeg" _
              (OSError "Read-only file system")
              eq_refl eq_refl eq_refl eq_refl eq_refl eq_refl eq_refl
              eq_refl eq_refl)
    as (Hres & Hfiles & _).
  split; [exact Hres | exact Hfiles].
Defined.

(** X2. A content type without ["/"] is not parsed: the unpacking of the
    split raises [ValueError]; a fetch whose primary response (status 200)
    has such a content type with ["image"] or ["audio"] in it returns the
    error record for the input URL and makes no folder and no file. *)
Theorem get_response_info_no_slash (content_type : string) :
  contains "/" content_type = false ->
  get_response_info content_type
  = Raise (ValueError "not enough values to unpack (expected 2, got 1)")
  /\ forall (env : Env) (url0 save_path file_name : string)
            (cookies : option (gmap string string)) (w : World)
            (response : Response),
      http env Primary (primary_request url0) = Ok response ->
      status response = 200%Z ->
      headers response !! "content-type" = Some content_type ->
      contains "image" content_type || contains "audio" content_type = true ->
      get_info env url0 save_path file_name cookies w
      = (log w [EvAcquire; EvSessionOpen;
                EvRequest Primary (primary_request url0);
                EvSessionClose; EvRelease],
         Ok (download_result url0 "error")).
Proof.
  intros Hslash.
  pose proof (get_response_info_slashless content_type Hslash) as Hparse.
  split; [exact Hparse |].
  intros env url0 save_path file_name cookies w response Hhttp Hstatus Hct Hkind.
  rewrite (get_info_direct_branch env url0 save_path file_name cookies w
             response content_type) by assumption.
  unfold try_except. rewrite !async_with_run, bind_emit.
  unfold direct_download. rewrite Hparse.
  rewrite (bind_raise (lift (Raise _)) _ _ _ _ eq_refl).
  cbn [fst snd ret]. rewrite !log_log. reflexivity.
Qed.

Lemma get_response_info_no_slash_witness :
  get_response_info "image"
  = Raise (ValueError "not enough values to unpack (expected 2, got 1)")
  /\ snd (get_info
            (example_env (Ok (example_response 200 "image" "https://host/x" ["ab"]))
               no_answer no_answer [])
            "https://host/x" "save" "a" None empty_world)
     = Ok (download_result "https://host/x" "error").
Proof.
  destruct (get_response_info_no_slash "image" eq_refl) as [Hparse Hfetch].
  split; [exact Hparse |].
  now rewrite (Hfetch
                 (example_env
                    (Ok (example_response 200 "image" "https://host/x" ["ab"]))
                    no_answer no_answer [])
                 "https://host/x" "save" "a" None empty_world
                 (example_response 200 "image" "https://host/x" ["ab"])
                 eq_refl eq_refl eq_refl eq_refl).
Defined.

(** X15. A direct download of any content type that parses (with an
    ["image"] or ["audio"] in it, parameters allowed), when the disk and the
    stream do not fail: the body is in the file named [file_name.extension]
    in the folder named by [full_type_info], that folder is created, the
    events are the primary request and the reads, and the result is
    [{url: the response's URL, file_info: full_type_info}]. *)
Theorem get_info_direct_download_parsed (env : Env)
    (url0 save_path file_name : string)
    (cookies : option (gmap string string)) (w : World)
    (response : Response)
    (content_type full_type_info extension : string)
    (info : gmap string string) :
  http env Primary (primary_request url0) = Ok response ->
  status response = 200%Z ->
  headers response !! "content-type" = Some content_type ->
  contains "image" content_type || contains "audio" content_type = true ->
  get_response_info content_type = Ok info ->
  info !! "full_type_info" = Some full_type_info ->
  info !! "extension" = Some extension ->
  let folder := join save_path full_type_info in
  let target := join folder (file_name +:+ "." +:+ extension) in
  create_folder env folder = Ok tt ->
  open_wb env target = Ok tt ->
  (forall data, In data (content response) -> write env target data = Ok tt) ->
  content_error response = None ->
  let out := get_info env url0 save_path file_name cookies w in
  snd out = Ok (download_result (url response) full_type_info)
  /\ files (fst out) = <[target := joined (content response)]> (files w)
  /\ folders (fst out) = {[folder]} ∪ folders w
  /\ trace (fst out)
     = (trace w ++ [EvAcquire; EvSessionOpen;
                    EvRequest Primary (primary_request url0)]
                ++ map EvRead (content response)
                ++ [EvSessionClose; EvRelease])%list.
Proof.
  intros Hhttp Hstatus Hct Hkind Hinfo Hfull Hext folder target
    Hfolder Hopen Hwrite Herr. cbv zeta.
  rewrite (get_info_direct_branch env url0 save_path file_name cookies w
             response content_type) by assumption.
  unfold try_except. rewrite !async_with_run, bind_emit.
  rewrite (direct_download_run env response content_type save_path file_name
             full_type_info extension info) by assumption.
  rewrite (bind_ok _ _ _ _ _
             (downloader_ok env response _ _ _ Hopen Hwrite Herr)).
  cbn [fst snd log files folders trace ret]. repeat split.
  rewrite <- !app_assoc. reflexivity.
Qed.

Lemma get_info_direct_download_parsed_witness :
  snd (get_info env_audio "https://host/s.mp3" "save" "song" None empty_world)
  = Ok (download_result "https://host/s.mp3" "audio/mpeg").
Proof.
  refine (proj1 (get_info_direct_download_parsed env_audio "https://host/s.mp3"
                   "save" "song" None empty_world audio_response
                   "audio/mpeg; charset=binary" "audio/mpeg" "mpeg" _
                   eq_refl eq_refl eq_refl eq_refl eq_refl eq_refl eq_refl
                   eq_refl eq_refl (fun _ _ => eq_refl) eq_refl)).
Defined.

(** *** Status checks and the resolved download *)

(** X10. A primary response with another status than 200 gives the error
    record for the input URL, whatever its content type: no further request
    is sent and the disk stays as it was. *)
Theorem get_info_primary_rejected (env : Env) (url0 save_path file_name : string)
    (cookies : option (gmap string string)) (w : World) (response : Response) :
  http env Primary (primary_request url0) = Ok response ->
  status response <> 200%Z ->
  let out := get_info env url0 save_path file_name cookies w in
  snd out = Ok (download_result url0 "error")
  /\ files (fst out) = files w
  /\ folders (fst out) = folders w
  /\ trace (fst out)
     = (trace w ++ [EvAcquire; EvSessionOpen;
                    EvRequest Primary (primary_request url0);
                    EvSessionClose; EvRelease])%list.
Proof.
  intros Hhttp Hstatus. cbv zeta.
  rewrite (get_info_primary_status env url0 save_path file_name cookies w
             response Hhttp Hstatus).
  repeat split.
Qed.

Lemma get_info_primary_rejected_witness :
  snd (get_info env_primary_404 "https://host/gone" "save" "a" None empty_world)
  = Ok (download_result "https://host/gone" "error").
Proof.
  refine (proj1 (get_info_primary_rejected env_primary_404 "https://host/gone"
                   "save" "a" None empty_world
                   (example_response 404 "text/html" "https://host/gone" ["gone"])
                   eq_refl _)).
  discriminate.
Defined.

(** X11. In the resolve branch, a viewer page with another status than
    200 makes the resolver fail its assertion with the status in the
    message, and the fetch returns the error record for the input URL
    without a follow-up request or a change of the disk. *)
Theorem get_info_viewer_rejected (env : Env) (url0 save_path file_name : string)
    (cookies : option (gmap string string)) (w : World)
    (response page : Response) (content_type : string) :
  http env Primary (primary_request url0) = Ok response ->
  status response = 200%Z ->
  headers response !! "content-type" = Some content_type ->
  contains "image" content_type = false ->
  contains "audio" content_type = false ->
  contains "text/html" content_type = true ->
  contains "vk.com/doc" url0 = true ->
  http env Viewer (viewer_request (url response) cookies) = Ok page ->
  status page <> 200%Z ->
  resolved_link env (url response) cookies
  = Raise (AssertionError ("Response status: " +:+ pretty (status page)))
  /\ get_info env url0 save_path file_name cookies w
     = (log w [EvAcquire; EvSessionOpen; EvRequest Primary (primary_request url0);
               EvRequest Viewer (viewer_request (url response) cookies);
               EvSessionClose; EvRelease],
        Ok (download_result url0 "error")).
Proof.
  intros Hhttp Hstatus Hct Himg Haud Hhtml Hvk Hpage Hpstatus.
  assert (Hlink : resolved_link env (url response) cookies
                  = Raise (AssertionError
                             ("Response status: " +:+ pretty (status page)))).
  { unfold resolved_link.
    now rewrite (find_link_by_url_status env _ cookies _ page Hpage Hpstatus). }
  split; [exact Hlink |].
  apply (get_info_no_link env url0 save_path file_name cookies w response
           content_type); try assumption.
  intros link. rewrite Hlink. discriminate.
Qed.

Lemma get_info_viewer_rejected_witness :
  resolved_link env_viewer_403 "https://vk.com/doc1_2" None
  = Raise (AssertionError "Response status: 403").
Proof.
  refine (proj1 (get_info_viewer_rejected env_viewer_403 "https://vk.com/doc1_2"
                   "save" "a" None empty_world viewer_primary
                   (example_response 403 "text/html" "https://vk.com/doc1_2" ["<html>"])
                   "text/html; charset=utf-8"
                   eq_refl eq_refl eq_refl eq_refl eq_refl eq_refl eq_refl eq_refl _)).
  discriminate.
Defined.

Lemma bind_create_folder {B} (env : Env) (path : string)
    (k : unit -> IO B) (w : World) :
  create_folder env path = Ok tt ->
  bind (tools_create_folder env path) k w
  = k tt {| files := files w; folders := {[path]} ∪ folders w; trace := trace w |}.
Proof. intros H. unfold bind, tools_create_folder. now rewrite H. Qed.

Lemma bind_ret {A B} (a : A) (k : A -> IO B) (w : World) :
  bind (ret a) k w = k a w.
Proof. reflexivity. Qed.

(** The resolve-and-download branch up to the download, once the resolver
    has given a link and the follow-up GET is answered with a content type
    that parses. *)
Lemma resolve_and_download_run (env : Env) (save_path file_name : string)
    (cookies : option (gmap string string)) (w : World)
    (response response2 : Response)
    (link content_type2 full_type_info name : string)
    (info : gmap string string) :
  resolved_link env (url response) cookies = Ok (Some link) ->
  http env FollowUp (followup_request link) = Ok response2 ->
  headers response2 !! "content-type" = Some content_type2 ->
  get_response_info content_type2 = Ok info ->
  info !! "full_type_info" = Some full_type_info ->
  get_file_name_by_link (Some link) = Some name ->
  create_folder env (join save_path full_type_info) = Ok tt ->
  resolve_and_download env response save_path file_name cookies w
  = (let! _ := downloader env response2 (join save_path full_type_info) name in
     ret (download_result (url response2) full_type_info))
      {| files := files w;
         folders := {[join save_path full_type_info]} ∪ folders w;
         trace := (trace w
                   ++ [EvRequest Viewer (viewer_request (url response) cookies);
                       EvRequest FollowUp (followup_request link)])%list |}.
Proof.
  intros Hlink Hfollow Hct2 Hinfo Hfull Hname Hfolder.
  unfold resolve_and_download.
  assert (Hfind : forall w0,
             find_link_by_url env (url response) cookies w0
             = (log w0 [EvRequest Viewer (viewer_request (url response) cookies)],
                Ok (Some link)))
    by (intros w0; now rewrite find_link_by_url_run, Hlink).
  rewrite (bind_ok _ _ _ _ _ (Hfind _)).
  rewrite (bind_ok _ _ _ _ _
             (session_get_ok env FollowUp link 15 None _ response2 Hfollow)).
  rewrite (getitem_Some _ _ _ Hct2), bind_lift, Hinfo, bind_lift.
  rewrite (getitem_Some _ _ _ Hfull), bind_lift.
  rewrite (bind_create_folder env _ _ _ Hfolder).
  unfold download_file_name. rewrite Hname, bind_ret.
  fold (followup_request link). rewrite log_log. reflexivity.
Qed.

(** X16. A resolved download that succeeds: the resolver gives a link, the
    follow-up GET is answered with a content type that parses, the disk and
    the stream do not fail. Then the body of the follow-up response is in
    the file whose name the extractor takes from the link, in the folder
    named by [full_type_info], and the result is [{url: the URL of the
    follow-up response, file_info: full_type_info}]. *)
Theorem get_info_resolved_download (env : Env) (url0 save_path file_name : string)
    (cookies : option (gmap string string)) (w : World)
    (response response2 : Response)
    (content_type link content_type2 full_type_info name : string)
    (info : gmap string string) :
  http env Primary (primary_request url0) = Ok response ->
  status response = 200%Z ->
  headers response !! "content-type" = Some content_type ->
  contains "image" content_type = false ->
  contains "audio" content_type = false ->
  contains "text/html" content_type = true ->
  contains "vk.com/doc" url0 = true ->
  resolved_link env (url response) cookies = Ok (Some link) ->
  http env FollowUp (followup_request link) = Ok response2 ->
  headers response2 !! "content-type" = Some content_type2 ->
  get_response_info content_type2 = Ok info ->
  info !! "full_type_info" = Some full_type_info ->
  get_file_name_by_link (Some link) = Some name ->
  let folder := join save_path full_type_info in
  let target := join folder name in
  create_folder env folder = Ok tt ->
  open_wb env target = Ok tt ->
  (forall data, In data (content response2) -> write env target data = Ok tt) ->
  content_error response2 = None ->
  let out := get_info env url0 save_path file_name cookies w in
  snd out = Ok (download_result (url response2) full_type_info)
  /\ files (fst out) = <[target := joined (content response2)]> (files w)
  /\ folders (fst out) = {[folder]} ∪ folders w.
Proof.
  intros Hhttp Hstatus Hct Himg Haud Hhtml Hvk Hlink Hfollow Hct2 Hinfo Hfull
    Hname folder target Hfolder Hopen Hwrite Herr. cbv zeta.
  rewrite (get_info_resolve_branch env url0 save_path file_name cookies w
             response content_type) by assumption.
  unfold try_except. rewrite !async_with_run, bind_emit.
  rewrite (resolve_and_download_run env save_path file_name cookies _ response
             response2 link content_type2 full_type_info name info)
    by assumption.
  rewrite (bind_ok _ _ _ _ _
             (downloader_ok env response2 _ _ _ Hopen Hwrite Herr)).
  cbn [fst snd log files folders trace ret]. repeat split.
Qed.

Lemma get_info_resolved_download_witness :
  snd (get_info (env_viewer followup_audio) "https://vk.com/doc1_2" "save" "a"
         None empty_world)
  = Ok (download_result "https://cdn/doc123" "audio/mpeg")
  /\ files (fst (get_info (env_viewer followup_audio) "https://vk.com/doc1_2"
                   "save" "a" None empty_world))
     = <["save/audio/mpeg/doc123" := "ID3data"]> ∅.
Proof.
  destruct (get_info_resolved_download (env_viewer followup_audio)
              "https://vk.com/doc1_2" "save" "a" None empty_world
              viewer_primary followup_audio "text/html; charset=utf-8"
              "https://cdn/doc123" "audio/mpeg" "audio/mpeg" "doc123"
              (<["full_type_info" := "audio/mpeg"]>
                 (<["extension" := "mpeg"]> (<["data_type" := "audio"]> ∅)))
              eq_refl eq_refl eq_refl eq_refl eq_refl eq_refl eq_refl
              eq_refl eq_refl eq_refl eq_refl eq_refl eq_refl
              eq_refl eq_refl (fun _ _ => eq_refl) eq_refl)
    as (Hres & Hfiles & _).
  split; [exact Hres | exact Hfiles].
Defined.

End MoreRuns.

(** ** What every fetch returns, requests and writes *)

Section Outcomes.

Import PyStr.

(** *** The classes of results *)

Lemma behaves_getitem_full (info : gmap string string) (ty ext : string)
    (Q : string -> Prop) :
  info !! "full_type_info" = Some (ty +:+ "/" +:+ ext) ->
  Q (ty +:+ "/" +:+ ext) ->
  behaves (lift (getitem info "full_type_info")) Q.
Proof.
  intros Hfull HQ. apply behaves_lift. intros a Ha.
  unfold getitem in Ha. rewrite Hfull in Ha. now injection Ha as <-.
Qed.

Lemma behaves_parsed (content_type : string) :
  behaves (lift (get_response_info content_type))
    (fun info => exists ty ext : string,
         info !! "full_type_info" = Some (ty +:+ "/" +:+ ext)
         /\ contains "/" ty = false /\ contains "/" ext = false).
Proof.
  apply behaves_lift. intros info Hinfo.
  destruct (get_response_info_parts content_type info Hinfo)
    as (ty & ext & _ & _ & Hf & Hty & Hext & _).
  now exists ty, ext.
Qed.

(** X17. Every fetch returns a record of one of three kinds: the error
    record [{url: input URL, file_info: "error"}]; a record with [file_info]
    ["not_parse"]; or a record whose [file_info] is a parsed content type
    [ty/ext], with no ["/"] in [ty] or [ext]. The kinds exclude each other,
    as only the third holds a ["/"]. *)
Theorem get_info_outcome (env : Env) (url0 save_path file_name : string)
    (cookies : option (gmap string string)) (w : World) :
  exists (w' : World) (u file_info : string),
    get_info env url0 save_path file_name cookies w
    = (w', Ok (download_result u file_info))
    /\ ((file_info = "error" /\ u = url0 /\ contains "/" file_info = false)
        \/ (file_info = "not_parse" /\ contains "/" file_info = false)
        \/ (exists ty ext : string,
              file_info = ty +:+ "/" +:+ ext
              /\ contains "/" ty = false /\ contains "/" ext = false
              /\ contains "/" file_info = true)).
Proof.
  pose (Q := fun d : gmap string string =>
               exists u file_info : string,
                 d = download_result u file_info
                 /\ (file_info = "not_parse"
                     \/ exists ty ext : string,
                          file_info = ty +:+ "/" +:+ ext
                          /\ contains "/" ty = false
                          /\ contains "/" ext = false)).
  assert (Hdirect : forall response content_type,
             behaves (direct_download env response content_type save_path
                        file_name) Q).
  { intros response content_type. unfold direct_download.
    eapply behaves_bind; [apply behaves_parsed |].
    intros info (ty & ext & Hf & Hty & Hext).
    eapply behaves_bind;
      [apply (behaves_getitem_full info ty ext (fun a => a = ty +:+ "/" +:+ ext) Hf
                eq_refl) |].
    intros full ->.
    apply behaves_then; [apply behaves_create_folder |]. intros _.
    apply behaves_then; [now apply behaves_lift |]. intros extension.
    apply behaves_then; [apply behaves_downloader |]. intros _.
    apply behaves_ret. exists (url response), (ty +:+ "/" +:+ ext).
    split; [reflexivity |]. right. now exists ty, ext. }
  assert (Hresolve : forall response,
             behaves (resolve_and_download env response save_path file_name
                        cookies) Q).
  { intros response. unfold resolve_and_download.
    apply behaves_then; [apply behaves_find_link_by_url |]. intros find_res.
    apply behaves_then; [apply behaves_session_get |]. intros response2.
    apply behaves_then; [now apply behaves_lift |]. intros content_type2.
    eapply behaves_bind; [apply behaves_parsed |].
    intros info (ty & ext & Hf & Hty & Hext).
    eapply behaves_bind;
      [apply (behaves_getitem_full info ty ext (fun a => a = ty +:+ "/" +:+ ext) Hf
                eq_refl) |].
    intros full ->.
    apply behaves_then; [apply behaves_create_folder |]. intros _.
    apply behaves_then.
    - unfold download_file_name.
      destruct (get_file_name_by_link find_res); [now apply behaves_ret |].
      apply behaves_then; [now apply behaves_lift |]. intros extension.
      now apply behaves_ret.
    - intros name. apply behaves_then; [apply behaves_downloader |]. intros _.
      apply behaves_ret. exists (url response2), (ty +:+ "/" +:+ ext).
      split; [reflexivity |]. right. now exists ty, ext. }
  assert (Htry : forall d,
             snd (get_info_try env url0 save_path file_name cookies w) = Ok d ->
             Q d).
  { unfold get_info_try. rewrite !async_with_run. cbn [snd].
    match goal with
    | |- forall d, snd (?body ?w0) = Ok d -> _ =>
        assert (Hbody : behaves body Q); [| destruct (Hbody w0) as (_ & _ & _ & H); exact H]
    end.
    apply behaves_then; [apply behaves_session_get |]. intros response.
    apply (behaves_bind _ _
             (fun first_block => match first_block with
                                 | inl d => Q d
                                 | inr _ => True
                                 end)).
    - apply behaves_then; [apply behaves_assert |]. intros _.
      apply behaves_then; [now apply behaves_lift |]. intros content_type.
      destruct (existsb _ _); [| now apply behaves_ret].
      apply (behaves_bind _ _ Q); [apply Hdirect |].
      intros d Hd. now apply behaves_ret.
    - intros [d | target_content_type] Hfirst; [now apply behaves_ret |].
      destruct (_ && _); [apply Hresolve |].
      apply behaves_ret. exists (url response), "not_parse".
      split; [reflexivity | now left]. }
  unfold get_info, try_except.
  destruct (get_info_try env url0 save_path file_name cookies w)
    as [w' [d | e]]; cbn [snd] in Htry.
  - destruct (Htry d eq_refl) as (u & file_info & -> & Hkind).
    exists w', u, file_info. split; [reflexivity |].
    destruct Hkind as [-> | (ty & ext & -> & Hty & Hext)].
    + right. left. now split.
    + right. right. exists ty, ext. repeat split; try assumption.
      unfold contains. cbn [append].
      rewrite (find_index_char_hit "/" ty ext (contains_false _ _ Hty)).
      reflexivity.
  - exists w', url0, "error". split; [reflexivity |]. left. now repeat split.
Qed.

(** *** The requests of a fetch *)

Lemma emits_ret {A} (P : event -> Prop) (a : A) : emits P (ret a).
Proof. intros w. exists []. cbn [ret fst]. now rewrite app_nil_r. Qed.

Lemma emits_lift {A} (P : event -> Prop) (r : result A) : emits P (lift r).
Proof. intros w. exists []. cbn [lift fst]. now rewrite app_nil_r. Qed.

Lemma emits_quiet {A} (P : event -> Prop) (m : IO A) :
  (forall w, trace (fst (m w)) = trace w) -> emits P m.
Proof. intros Hm w. exists []. now rewrite app_nil_r, Hm. Qed.

Lemma emits_emit (P : event -> Prop) (e : event) : P e -> emits P (emit e).
Proof. intros He w. exists [e]. cbn [emit log fst trace]. split; [reflexivity | now constructor]. Qed.

Lemma emits_bind {A B} (P : event -> Prop) (m : IO A) (k : A -> IO B) :
  emits P m -> (forall a, emits P (k a)) -> emits P (bind m k).
Proof.
  intros Hm Hk w. destruct (Hm w) as (evs1 & Ht1 & Hp1).
  unfold bind. destruct (m w) as [w1 [a | e]]; cbn [fst] in *.
  - destruct (Hk a w1) as (evs2 & Ht2 & Hp2).
    exists (evs1 ++ evs2)%list. rewrite Ht2, Ht1, app_assoc.
    split; [reflexivity | now apply Forall_app].
  - now exists evs1.
Qed.

Lemma emits_async_with {A} (P : event -> Prop) (enter exit : event) (body : IO A) :
  P enter -> P exit -> emits P body -> emits P (async_with enter exit body).
Proof.
  intros Hin Hout Hbody w. rewrite async_with_run. cbn [fst log trace].
  destruct (Hbody (log w [enter])) as (evs & Ht & Hp).
  exists ([enter] ++ evs ++ [exit])%list. rewrite Ht. cbn [log trace].
  rewrite <- !app_assoc. split; [reflexivity |].
  apply Forall_app. split; [now constructor |].
  apply Forall_app. split; [exact Hp | now constructor].
Qed.

Lemma emits_downloader (P : event -> Prop) (env : Env) (response : Response)
    (path name : string) :
  (forall chunk, P (EvRead chunk)) ->
  emits P (downloader env response path name).
Proof.
  intros Hread. unfold downloader.
  apply emits_bind.
  { apply emits_quiet. intros w. unfold file_open. now destruct (open_wb env _). }
  intros _. apply emits_bind.
  - induction (content response) as [|data chunks IH]; cbn [write_chunks].
    + apply emits_ret.
    + apply emits_bind; [now apply emits_emit |]. intros _.
      apply emits_bind; [| intros _; exact IH].
      apply emits_quiet. intros w. unfold file_write.
      now destruct (write env _ data).
  - intros _. destruct (content_error response);
      [apply (emits_lift P (Raise e)) | apply emits_ret].
Qed.

(** X18. A fetch of a URL without ["vk.com/doc"] never sends the request
    of the link resolver or the follow-up request, whatever the server
    answers, and its primary request carries no cookies: the cookies of the
    call reach no server. *)
Theorem get_info_primary_only (env : Env) (url0 save_path file_name : string)
    (cookies : option (gmap string string)) :
  contains "vk.com/doc" url0 = false ->
  emits primary_only (get_info env url0 save_path file_name cookies).
Proof.
  intros Hvk.
  assert (Htry : emits primary_only
                   (get_info_try env url0 save_path file_name cookies)).
  { unfold get_info_try.
    apply emits_async_with; [exact I | exact I |].
    apply emits_async_with; [exact I | exact I |].
    apply emits_bind.
    { unfold session_get. apply emits_bind; [now apply emits_emit |].
      intros _. apply emits_lift. }
    intros response. apply emits_bind.
    - apply emits_bind; [unfold assert; destruct (_ =? _)%Z;
                         [apply emits_ret | apply (emits_lift _ (Raise _))] |].
      intros _. apply emits_bind; [apply emits_lift |]. intros content_type.
      destruct (existsb _ _); [| apply emits_ret].
      apply emits_bind; [| intros d; apply emits_ret].
      unfold direct_download.
      apply emits_bind; [apply emits_lift |]. intros info.
      apply emits_bind; [apply emits_lift |]. intros full.
      apply emits_bind.
      { apply emits_quiet. intros w. unfold tools_create_folder.
        now destruct (create_folder env _). }
      intros _. apply emits_bind; [apply emits_lift |]. intros extension.
      apply emits_bind; [now apply emits_downloader |]. intros _.
      apply emits_ret.
    - intros [d | target_content_type]; [apply emits_ret |].
      rewrite Hvk, andb_false_r. apply emits_ret. }
  intros w. destruct (Htry w) as (evs & Ht & Hp). exists evs.
  now rewrite get_info_world.
Qed.

Lemma get_info_primary_only_witness :
  emits primary_only
    (get_info env_pdf "https://host/a.pdf" "save" "a" (Some {["remixsid" := "secret"]})).
Proof.
  exact (get_info_primary_only env_pdf "https://host/a.pdf" "save" "a"
           (Some {["remixsid" := "secret"]}) eq_refl).
Defined.

(** *** The files of a fetch *)

Lemma no_file_bind {A B} (m : IO A) (k : A -> IO B) :
  no_file m -> (forall a, no_file (k a)) -> no_file (bind m k).
Proof.
  intros Hm Hk w. specialize (Hm w). unfold bind.
  destruct (m w) as [w1 [a | e]]; cbn [fst] in *; [| exact Hm].
  now rewrite (Hk a w1).
Qed.

Lemma one_file_after {A B} (m : IO A) (k : A -> IO B) :
  no_file m -> (forall a, one_file (k a)) -> one_file (bind m k).
Proof.
  intros Hm Hk w. specialize (Hm w). unfold bind.
  destruct (m w) as [w1 [a | e]]; cbn [fst] in *.
  - destruct (Hk a w1) as (p & Hp). exists p. intros q Hq.
    now rewrite (Hp q Hq), Hm.
  - exists "". intros q _. now rewrite Hm.
Qed.

Lemma one_file_before {A B} (m : IO A) (k : A -> IO B) :
  one_file m -> (forall a, no_file (k a)) -> one_file (bind m k).
Proof.
  intros Hm Hk w. destruct (Hm w) as (p & Hp). exists p. intros q Hq.
  unfold bind. specialize (Hp q Hq).
  destruct (m w) as [w1 [a | e]]; cbn [fst] in *; [| exact Hp].
  now rewrite (Hk a w1).
Qed.

Lemma no_file_one_file {A} (m : IO A) : no_file m -> one_file m.
Proof. intros Hm w. exists "". intros q _. now rewrite Hm. Qed.

Lemma no_file_ret {A} (a : A) : no_file (ret a).
Proof. now intros w. Qed.

Lemma no_file_lift {A} (r : result A) : no_file (lift r).
Proof. now intros w. Qed.

Lemma no_file_session_get (env : Env) (s : site) (target : option string)
    (timeout : Z) (cookies : option (gmap string string)) :
  no_file (session_get env s target timeout cookies).
Proof.
  unfold session_get. destruct target; [| now intros w].
  apply no_file_bind; [now intros w | intros _; apply no_file_lift].
Qed.

Lemma no_file_create_folder (env : Env) (path : string) :
  no_file (tools_create_folder env path).
Proof. intros w. unfold tools_create_folder. now destruct (create_folder env path). Qed.

Lemma one_file_async_with {A} (enter exit : event) (body : IO A) :
  one_file body -> one_file (async_with enter exit body).
Proof.
  intros Hbody w. rewrite async_with_run. cbn [fst log files].
  destruct (Hbody (log w [enter])) as (p & Hp). now exists p.
Qed.

(** The downloader writes to its one path. *)
Lemma downloader_frame (env : Env) (response : Response) (path name : string)
    (w : World) (q : string) :
  q <> join path name ->
  files (fst (downloader env response path name w)) !! q = files w !! q.
Proof.
  intros Hq. unfold downloader.
  assert (Hchunks : forall chunks w0,
             files (fst (write_chunks env (join path name) chunks w0)) !! q
             = files w0 !! q).
  { induction chunks as [|data chunks IH]; intros w0; [reflexivity |].
    cbn [write_chunks]. rewrite bind_emit. unfold bind at 1, file_write.
    destruct (write env (join path name) data); [| reflexivity].
    rewrite IH. cbn [files log]. now apply lookup_insert_ne. }
  unfold bind at 1, file_open.
  destruct (open_wb env (join path name)); [| reflexivity].
  unfold bind.
  match goal with
  | |- context [write_chunks env ?p ?c ?w0] =>
      specialize (Hchunks c w0); destruct (write_chunks env p c w0) as [w1 [[] | e]]
  end; cbn [fst files] in *.
  - destruct (content_error response); cbn [fst raise ret];
      rewrite Hchunks; now apply lookup_insert_ne.
  - rewrite Hchunks. now apply lookup_insert_ne.
Qed.

Lemma one_file_downloader (env : Env) (response : Response) (path name : string) :
  one_file (downloader env response path name).
Proof. intros w. exists (join path name). intros q. apply downloader_frame. Qed.

(** A step that returns either a final value, having changed at most one
    file, or an intermediate one, having changed none, followed by a step
    that changes at most one file on the intermediate value only. *)
Lemma one_file_sum {A B C} (m : IO (A + B)) (k : A + B -> IO C) :
  one_file m ->
  (forall w b, snd (m w) = Ok (inr b) -> files (fst (m w)) = files w) ->
  (forall a, no_file (k (inl a))) ->
  (forall b, one_file (k (inr b))) ->
  one_file (bind m k).
Proof.
  intros Hm Hinr Hl Hr w. unfold bind.
  destruct (Hm w) as (p & Hp). specialize (Hinr w).
  destruct (m w) as [w1 [[a | b] | e]]; cbn [fst snd] in *.
  - exists p. intros q Hq. now rewrite (Hl a w1), (Hp q Hq).
  - destruct (Hr b w1) as (p' & Hp'). exists p'. intros q Hq.
    now rewrite (Hp' q Hq), (Hinr b eq_refl).
  - now exists p.
Qed.

Lemma no_file_find_link_by_url (env : Env) (url0 : string)
    (cookies : option (gmap string string)) :
  no_file (find_link_by_url env url0 cookies).
Proof. intros w. now rewrite find_link_by_url_run. Qed.

Lemma one_file_direct_download (env : Env) (response : Response)
    (content_type save_path file_name : string) :
  one_file (direct_download env response content_type save_path file_name).
Proof.
  unfold direct_download.
  apply one_file_after; [apply no_file_lift |]. intros info.
  apply one_file_after; [apply no_file_lift |]. intros full.
  apply one_file_after; [apply no_file_create_folder |]. intros _.
  apply one_file_after; [apply no_file_lift |]. intros extension.
  apply one_file_before; [apply one_file_downloader |].
  intros _. apply no_file_ret.
Qed.

Lemma one_file_resolve_and_download (env : Env) (response : Response)
    (save_path file_name : string) (cookies : option (gmap string string)) :
  one_file (resolve_and_download env response save_path file_name cookies).
Proof.
  unfold resolve_and_download.
  apply one_file_after; [apply no_file_find_link_by_url |]. intros find_res.
  apply one_file_after; [apply no_file_session_get |]. intros response2.
  apply one_file_after; [apply no_file_lift |]. intros content_type2.
  apply one_file_after; [apply no_file_lift |]. intros info.
  apply one_file_after; [apply no_file_lift |]. intros full.
  apply one_file_after; [apply no_file_create_folder |]. intros _.
  apply one_file_after.
  - unfold download_file_name.
    destruct (get_file_name_by_link find_res); [apply no_file_ret |].
    apply no_file_bind; [apply no_file_lift | intros ext; apply no_file_ret].
  - intros name. apply one_file_before; [apply one_file_downloader |].
    intros _. apply no_file_ret.
Qed.

(** X19. A fetch changes at most one file: whatever the servers and the
    disk answer, there is a path such that every other path holds after the
    fetch what it held before. *)
Theorem get_info_one_file (env : Env) (url0 save_path file_name : string)
    (cookies : option (gmap string string)) :
  one_file (get_info env url0 save_path file_name cookies).
Proof.
  assert (Htry : one_file (get_info_try env url0 save_path file_name cookies)).
  { unfold get_info_try.
    apply one_file_async_with, one_file_async_with.
    apply one_file_after; [apply no_file_session_get |]. intros response.
    apply one_file_sum.
    - apply one_file_after;
        [unfold assert; destruct (_ =? _)%Z; now intros w |].
      intros _. apply one_file_after; [apply no_file_lift |]. intros content_type.
      destruct (existsb _ _); [| apply no_file_one_file, no_file_ret].
      apply one_file_before; [apply one_file_direct_download |].
      intros d. apply no_file_ret.
    - intros w b. unfold bind, assert, lift, ret, raise.
      destruct (status response =? 200)%Z; [| discriminate].
      destruct (getitem (headers response) "content-type") as [ct | e];
        [| discriminate].
      destruct (existsb _ _); [| reflexivity].
      destruct (direct_download env response ct save_path file_name w)
        as [w1 [d | e]]; discriminate.
    - intros d. apply no_file_ret.
    - intros target.
      destruct (_ && _); [apply one_file_resolve_and_download |].
      apply no_file_one_file, no_file_ret. }
  intros w. destruct (Htry w) as (p & Hp). exists p.
  now rewrite get_info_world.
Qed.

End Outcomes.

(** ** The end of a batch and its progress *)

Section Batches.

(** A fetch with nothing ahead holds no permit and has no open session. *)
Lemma finished_task_idle (t : Task) :
  protocol (done t ++ todo t) -> todo t = [] ->
  holds_permit t = false /\ session_active t = false.
Proof.
  destruct t as [past rest]. cbn [done todo]. intros Hp ->.
  destruct (protocol_position past [] Hp)
    as [[_ (r & Hr)] | [[_ (r & Hr)] | [(seen & e & rest' & _ & _ & Hr & _)
       | [(mid & _ & _ & Hr) | (mid & -> & Hnet & _)]]]];
    try discriminate Hr.
  unfold holds_permit, session_active. cbn [done].
  repeat (rewrite occurrences_app || rewrite occurrences_cons
          || rewrite occurrences_nil).
  rewrite (occurrences_network is_acquire _ (fun e => ltac:(now destruct e)) Hnet),
          (occurrences_network is_release _ (fun e => ltac:(now destruct e)) Hnet),
          (occurrences_network is_open _ (fun e => ltac:(now destruct e)) Hnet),
          (occurrences_network is_close _ (fun e => ltac:(now destruct e)) Hnet).
  split; reflexivity.
Qed.

(** A fetch that holds a permit has a next event, and it is not the
    acquisition. *)
Lemma holder_can_move (t : Task) :
  protocol (done t ++ todo t) -> holds_permit t = true ->
  exists e rest, todo t = e :: rest /\ is_acquire e = false.
Proof.
  destruct t as [past rest]. cbn [done todo]. intros Hp Hhold.
  destruct (protocol_position past rest Hp)
    as [[-> _] | [[_ (r & ->)] | [(seen & e & rest' & _ & _ & -> & He)
       | [(mid & _ & _ & ->) | (mid & -> & Hnet & ->)]]]].
  - discriminate Hhold.
  - now exists EvSessionOpen, r.
  - exists e, rest'. split; [reflexivity |].
    destruct He as [He | ->]; [now destruct e | reflexivity].
  - now exists EvRelease, [].
  - destruct (finished_task_idle
                {| done := EvAcquire :: EvSessionOpen
                           :: mid ++ [EvSessionClose; EvRelease];
                   todo := [] |}) as [Hidle _];
      [cbn [done todo]; rewrite app_nil_r in Hp; now rewrite app_nil_r
      | reflexivity |].
    congruence.
Qed.

(** X20. When every fetch of a batch has performed all its events, all
    [n] permits are back in the semaphore and no session is open. *)
Theorem batch_finished_permits (n : nat) (batch : list Call) (s : System) :
  rtc step (start n batch) s ->
  finished s ->
  permits s = n /\ held_permits s = 0 /\ active_sessions s = 0.
Proof.
  intros Hrun Hfin.
  destruct (batch_invariant_reachable n batch s Hrun) as [Hproto Hsum].
  assert (Hheld : held_permits s = 0 /\ active_sessions s = 0).
  { clear Hsum Hrun. unfold held_permits, active_sessions, finished in *.
    induction Hproto as [|t ts Ht _ IH]; [split; reflexivity |].
    apply Forall_cons in Hfin as [Hdone Hfin].
    destruct (finished_task_idle t Ht Hdone) as [Hh Ha].
    cbn [List.filter]. rewrite Hh, Ha. exact (IH Hfin). }
  destruct Hheld as [Hheld Hactive]. rewrite Hheld in Hsum.
  repeat split; [lia | exact Hheld | exact Hactive].
Qed.

Lemma batch_finished_permits_witness :
  rtc step (start 1 [offline_call]) offline_done
  /\ permits offline_done = 1 /\ active_sessions offline_done = 0.
Proof.
  assert (Hrun : rtc step (start 1 [offline_call]) offline_done).
  { unfold start, offline_done. cbn [map].
    change (fetch_events offline_call)
      with [EvAcquire; EvSessionOpen;
            EvRequest Primary (primary_request "https://host/b.jpg");
            EvSessionClose; EvRelease].
    eapply rtc_l; [exact (step_task 1 0 [] [] [] _ EvAcquire eq_refl) |].
    eapply rtc_l; [exact (step_task 0 0 [] [] _ _ EvSessionOpen eq_refl) |].
    eapply rtc_l; [exact (step_task 0 0 [] [] _ _ (EvRequest Primary _) eq_refl) |].
    eapply rtc_l; [exact (step_task 0 0 [] [] _ _ EvSessionClose eq_refl) |].
    eapply rtc_l; [exact (step_task 0 1 [] [] _ _ EvRelease eq_refl) |].
    apply rtc_refl. }
  split; [exact Hrun |].
  destruct (batch_finished_permits 1 [offline_call] offline_done Hrun)
    as (Hp & _ & Ha); [repeat constructor | ].
  split; [exact Hp | exact Ha].
Defined.

Lemma finished_or_pending (ts : list Task) :
  Forall (fun t => todo t = []) ts
  \/ exists before past e rest after,
       ts = (before ++ {| done := past; todo := e :: rest |} :: after)%list.
Proof.
  induction ts as [|t ts IH]; [left; constructor |].
  destruct t as [past [|e rest]].
  - destruct IH as [Hall | (before & past' & e & rest & after & ->)].
    + left. now constructor.
    + right. now exists ({| done := past; todo := [] |} :: before), past', e, rest, after.
  - right. now exists [], past, e, rest, ts.
Qed.

(** X21. A batch on a semaphore with at least one permit cannot get
    stuck: in every state of its run either all fetches are finished or
    some fetch can perform its next event. *)
Theorem batch_progress (n : nat) (batch : list Call) (s : System) :
  0 < n ->
  rtc step (start n batch) s ->
  finished s \/ exists s', step s s'.
Proof.
  intros Hn Hrun.
  destruct (batch_invariant_reachable n batch s Hrun) as [Hproto Hsum].
  destruct s as [value ts]. cbn [tasks permits] in *.
  destruct value as [|value].
  - (* no free permit: a holder moves *)
    right. unfold held_permits in Hsum. cbn [tasks] in Hsum.
    assert (Hholder : exists t, In t ts /\ holds_permit t = true).
    { destruct (List.filter holds_permit ts) as [|t l] eqn:Hf;
        [cbn [length] in Hsum; lia |].
      exists t. apply List.filter_In. rewrite Hf. now left. }
    destruct Hholder as (t & Hin & Hhold).
    apply in_split in Hin as (before & after & ->).
    apply Forall_app in Hproto as [_ Hproto].
    apply Forall_cons in Hproto as [Ht _].
    destruct (holder_can_move t Ht Hhold) as (e & rest & Htodo & He).
    destruct t as [past todo0]. cbn [todo] in Htodo. subst todo0.
    destruct (sema_step 0 e) as [value' |] eqn:Hsema;
      [| destruct e; discriminate].
    eexists. exact (step_task 0 value' before after past rest e Hsema).
  - (* a free permit: any fetch with an event ahead moves *)
    destruct (finished_or_pending ts)
      as [Hall | (before & past & e & rest & after & ->)]; [now left |].
    right.
    destruct (sema_step (S value) e) as [value' |] eqn:Hsema;
      [| now destruct e].
    eexists. exact (step_task (S value) value' before after past rest e Hsema).
Qed.

Lemma batch_progress_witness :
  finished (start 1 example_batch) \/ exists s', step (start 1 example_batch) s'.
Proof.
  exact (batch_progress 1 example_batch (start 1 example_batch)
           (Nat.lt_0_succ 0) (rtc_refl _ _)).
Defined.

End Batches.
